(** * EquipmentDetails: the equipment detail and booking page

    A shallow embedding of [src/pages/EquipmentDetails.tsx]: the component
    state, its event handlers (date change, booking submission, equipment
    fetch), the totals effect and the parts of the rendered view that the
    handlers interact with (buttons, price breakdown, gallery), followed by
    the page as a transition system and by its properties.

    JavaScript numbers are modelled as exact rationals extended with [NaN];
    every arithmetic operator and [Math] function of the source has its own
    counterpart below, so that the handlers read like the TypeScript.  The
    two computations that leave the integers are also given on binary64,
    and compared with the exact ones on whole amounts and on dates. *)

From Stdlib Require Import ZArith QArith Qround Qabs Ascii String List Bool Lia Lqa Permutation.
From Stdlib Require Import SpecFloat.
Import ListNotations.
Local Open Scope Z_scope.

(** ** JavaScript values used by the page *)

Module JS.

(** A JS number: an exact rational, or NaN. *)
Inductive number : Type :=
| Num (q : Q)
| NaN.

Definition ofZ (z : Z) : number := Num (inject_Z z).

(** [a * b] *)
Definition mul (a b : number) : number :=
  match a, b with
  | Num x, Num y => Num (x * y)
  | _, _ => NaN
  end.

(** [a + b] *)
Definition add (a b : number) : number :=
  match a, b with
  | Num x, Num y => Num (x + y)
  | _, _ => NaN
  end.

(** [a - b] *)
Definition sub (a b : number) : number :=
  match a, b with
  | Num x, Num y => Num (x - y)
  | _, _ => NaN
  end.

(** [a / b], for the non-zero constant divisors of this page *)
Definition div (a b : number) : number :=
  match a, b with
  | Num x, Num y => Num (x / y)
  | _, _ => NaN
  end.

(** [Math.abs] *)
Definition Math_abs (a : number) : number :=
  match a with
  | Num x => Num (Qabs x)
  | NaN => NaN
  end.

(** [Math.ceil] *)
Definition Math_ceil (a : number) : number :=
  match a with
  | Num x => ofZ (Qceiling x)
  | NaN => NaN
  end.

(** [Math.round]: the nearest integer, a tie going towards +infinity,
    that is [floor (x + 1/2)]. *)
Definition Math_round (a : number) : number :=
  match a with
  | Num x => ofZ (Qfloor (x + (1 # 2)))
  | NaN => NaN
  end.

Definition Qlt_bool (x y : Q) : bool := negb (Qle_bool y x).

(** [a < b]; false as soon as one side is NaN *)
Definition lt (a b : number) : bool :=
  match a, b with
  | Num x, Num y => Qlt_bool x y
  | _, _ => false
  end.

(** [a > b] *)
Definition gt (a b : number) : bool := lt b a.

(** [a >= b]; false as soon as one side is NaN *)
Definition ge (a b : number) : bool :=
  match a, b with
  | Num x, Num y => Qle_bool y x
  | _, _ => false
  end.

(** Truthiness of a number: neither 0 nor NaN. *)
Definition truthy (a : number) : bool :=
  match a with
  | Num x => negb (Qeq_bool x 0)
  | NaN => false
  end.

(** Truthiness of a string: not empty. *)
Definition truthy_str (s : string) : bool :=
  match s with
  | EmptyString => false
  | String _ _ => true
  end.

(** [Array.prototype.sort] with a comparator, as the insertion sort that
    V8 runs on a short array: the elements are taken from left to right,
    and the element taken, the pivot, is compared with the part already
    sorted, [cmp pivot y]; it is placed before [y] when the answer is
    negative and behind it otherwise.  [sort_insert] receives the sorted
    part last element first.  For a consistent comparator this is the
    stable sort that ECMAScript asks of every engine; for a comparator
    that is not consistent, which [mainFirst] is on a list with two
    flagged images, ECMAScript leaves the order to the engine, and the
    order below is the one of this insertion. *)
Fixpoint sort_insert {A : Type} (cmp : A -> A -> Z) (pivot : A) (sorted : list A)
  : list A :=
  match sorted with
  | [] => [pivot]
  | y :: sorted' =>
      if cmp pivot y <? 0 then y :: sort_insert cmp pivot sorted'
      else pivot :: y :: sorted'
  end.

Definition Array_sort {A : Type} (cmp : A -> A -> Z) (l : list A) : list A :=
  rev (fold_left (fun sorted pivot => sort_insert cmp pivot sorted) l []).

(** Two numbers denote the same value. *)
Definition same (a b : number) : Prop :=
  match a, b with
  | Num x, Num y => x == y
  | NaN, NaN => True
  | _, _ => False
  end.

End JS.

Import JS.

Declare Scope js_scope.
Delimit Scope js_scope with js.
Infix "*" := JS.mul : js_scope.
Infix "+" := JS.add : js_scope.
Infix "-" := JS.sub : js_scope.
Infix "/" := JS.div : js_scope.

(** ** Data model *)

Module Image.
Record t : Type := mk
  { id : string;
    image_url : string;
    is_main : bool }.
End Image.

Module UserProfile.
Record t : Type := mk
  { id : string;
    company_name : string;
    full_name : string;
    email : string }.
End UserProfile.

(** [interface Equipment] *)
Module Equipment.
Record t : Type := mk
  { id : string;
    title : string;
    description : string;
    type : string;
    location : string;
    rate : number;
    status : string;
    user_id : string;
    user_profiles : option UserProfile.t;
    images : list Image.t;
    features : list string }.
End Equipment.

(** The row that the [equipment] query returns: the columns of the table
    with the joined profile and image set; the joined image set and the
    feature list may be missing. *)
Module EquipmentRow.
Record t : Type := mk
  { id : string;
    title : string;
    description : string;
    type : string;
    location : string;
    rate : number;
    status : string;
    user_id : string;
    user_profiles : option UserProfile.t;
    equipment_images : option (list Image.t);
    features : option (list string) }.
End EquipmentRow.

(** The signed-in user of the authentication store. *)
Module User.
Record t : Type := mk { id : string }.
End User.

(** [interface BookingData] *)
Module BookingData.
Record t : Type := mk
  { startDate : string;
    endDate : string;
    notes : string }.
End BookingData.

(** The object handed to [supabase.from('bookings').insert]. *)
Module Booking.
Record t : Type := mk
  { equipment_id : string;
    user_id : string;
    start_date : string;
    end_date : string;
    days : number;
    rate_per_day : number;
    subtotal : number;
    service_fee : number;
    total_amount : number;
    status : string;
    notes : option string }.
End Booking.

(** The [useState] cells of the component, with the [user] of the
    authentication store. *)
Record State : Type := mkState
  { user : option User.t;
    equipment : option Equipment.t;
    loading : bool;
    showBookingModal : bool;
    bookingData : BookingData.t;
    duration : number;
    totalAmount : number;
    submitting : bool;
    currentImageIndex : nat }.

Definition setEquipment (e : Equipment.t) (st : State) : State :=
  mkState (user st) (Some e) (loading st) (showBookingModal st) (bookingData st)
          (duration st) (totalAmount st) (submitting st) (currentImageIndex st).

Definition setLoading (b : bool) (st : State) : State :=
  mkState (user st) (equipment st) b (showBookingModal st) (bookingData st)
          (duration st) (totalAmount st) (submitting st) (currentImageIndex st).

Definition setShowBookingModal (b : bool) (st : State) : State :=
  mkState (user st) (equipment st) (loading st) b (bookingData st)
          (duration st) (totalAmount st) (submitting st) (currentImageIndex st).

Definition setBookingData (d : BookingData.t) (st : State) : State :=
  mkState (user st) (equipment st) (loading st) (showBookingModal st) d
          (duration st) (totalAmount st) (submitting st) (currentImageIndex st).

Definition setDuration (n : number) (st : State) : State :=
  mkState (user st) (equipment st) (loading st) (showBookingModal st) (bookingData st)
          n (totalAmount st) (submitting st) (currentImageIndex st).

Definition setTotalAmount (n : number) (st : State) : State :=
  mkState (user st) (equipment st) (loading st) (showBookingModal st) (bookingData st)
          (duration st) n (submitting st) (currentImageIndex st).

Definition setSubmitting (b : bool) (st : State) : State :=
  mkState (user st) (equipment st) (loading st) (showBookingModal st) (bookingData st)
          (duration st) (totalAmount st) b (currentImageIndex st).

Definition setCurrentImageIndex (i : nat) (st : State) : State :=
  mkState (user st) (equipment st) (loading st) (showBookingModal st) (bookingData st)
          (duration st) (totalAmount st) (submitting st) i.

(** The initial values of the [useState] cells. *)
Definition initialState (u : option User.t) : State :=
  {| user := u;
     equipment := None;
     loading := true;
     showBookingModal := false;
     bookingData := BookingData.mk "" "" "";
     duration := ofZ 0;
     totalAmount := ofZ 0;
     submitting := false;
     currentImageIndex := 0%nat |}.

(** What a handler does to the outside world. *)
Inductive effect : Type :=
| PreventDefault
| Alert (message : string)
| ConsoleError (label : string) (error : string)
| Insert (table : string) (row : Booking.t)
| Navigate (to : string).

(** The answer of the store to the equipment query. *)
Record FetchResponse : Type := mkFetchResponse
  { data : option EquipmentRow.t;
    error : option string }.

(** The answer of the store to the insert: an error, or none. *)
Record InsertResponse : Type := mkInsertResponse
  { insert_error : option string }.

(** The wall clock read by [new Date()]: the time value in milliseconds
    and the offset of local time from UTC, in milliseconds. *)
Record Clock : Type := mkClock
  { now : Z;
    tzOffset : Z }.

Inductive dateField : Type := startDate | endDate.

Local Open Scope string_scope.

(** ** The component *)

Section EquipmentDetails.

(** [new Date(s).getTime()]: the time value of the date that the string
    denotes, [None] for an invalid date.  The parser is the host's. *)
Variable Date_parse : string -> option Z.

(** A [Date] object is represented by its time value, NaN for an invalid
    date; relational operators on dates compare these. *)
Definition new_Date (s : string) : number :=
  match Date_parse s with
  | Some t => ofZ t
  | None => NaN
  end.

Definition getTime (d : number) : number := d.

(** [today.setHours(0, 0, 0, 0)] on [new Date()]: midnight of the current
    local day. *)
Definition setHours0 (clk : Clock) : number :=
  let local := now clk + tzOffset clk in
  ofZ (local - local mod 86400000 - tzOffset clk).

(** *** Totals effect (lines 67-75) *)

(** [duration > 0 && equipment?.rate]: the rate is undefined while no
    equipment is loaded, and a rate of 0 is falsy as well. *)
Definition totalsEffect (st : State) : State :=
  match equipment st with
  | Some eq =>
      if gt (duration st) (ofZ 0) && truthy (Equipment.rate eq) then
        let subtotal := (duration st * Equipment.rate eq)%js in
        let serviceFee := Math_round (subtotal * Num (5 # 100))%js in
        setTotalAmount (subtotal + serviceFee)%js st
      else setTotalAmount (ofZ 0) st
  | None => setTotalAmount (ofZ 0) st
  end.

(** *** fetchEquipmentDetails (lines 84-125) *)

(** The comparator of the image sort. *)
Definition mainFirst (a b : Image.t) : Z :=
  if Image.is_main b then 1 else if Image.is_main a then -1 else 0.

Definition fetchEquipmentDetails (resp : FetchResponse) (st : State)
  : State * list effect :=
  let st := setLoading true st in
  match error resp with
  | Some err =>
      (setLoading false st, [ConsoleError "Error fetching equipment:" err])
  | None =>
      match data resp with
      | Some d =>
          let sortedImages :=
            match EquipmentRow.equipment_images d with
            | Some imgs => Array_sort mainFirst imgs
            | None => []
            end in
          let e :=
            {| Equipment.id := EquipmentRow.id d;
               Equipment.title := EquipmentRow.title d;
               Equipment.description := EquipmentRow.description d;
               Equipment.type := EquipmentRow.type d;
               Equipment.location := EquipmentRow.location d;
               Equipment.rate := EquipmentRow.rate d;
               Equipment.status := EquipmentRow.status d;
               Equipment.user_id := EquipmentRow.user_id d;
               Equipment.user_profiles := EquipmentRow.user_profiles d;
               Equipment.images := sortedImages;
               Equipment.features :=
                 match EquipmentRow.features d with
                 | Some fs => fs
                 | None => []
                 end |} in
          (setLoading false (setEquipment e st), [])
      | None => (setLoading false st, [])
      end
  end.

(** *** calculateDuration (lines 127-132) *)

Definition calculateDuration (start end_ : string) : number :=
  let startDate := new_Date start in
  let endDate := new_Date end_ in
  let diffTime := Math_abs (getTime endDate - getTime startDate)%js in
  Math_ceil (diffTime / (ofZ 1000 * ofZ 60 * ofZ 60 * ofZ 24))%js.

(** *** handleDateChange (lines 134-144) *)

Definition handleDateChange (field : dateField) (value : string) (st : State) : State :=
  let newBookingData :=
    match field with
    | startDate =>
        BookingData.mk value (BookingData.endDate (bookingData st))
                       (BookingData.notes (bookingData st))
    | endDate =>
        BookingData.mk (BookingData.startDate (bookingData st)) value
                       (BookingData.notes (bookingData st))
    end in
  let st := setBookingData newBookingData st in
  if truthy_str (BookingData.startDate newBookingData)
     && truthy_str (BookingData.endDate newBookingData) then
    let days := calculateDuration (BookingData.startDate newBookingData)
                                  (BookingData.endDate newBookingData) in
    setDuration days st
  else setDuration (ofZ 0) st.

(** The [onChange] of the notes field (line 454). *)
Definition handleNotesChange (value : string) (st : State) : State :=
  setBookingData
    (BookingData.mk (BookingData.startDate (bookingData st))
                    (BookingData.endDate (bookingData st)) value) st.

(** *** handleBookingSubmit (lines 146-216) *)

(** The handler up to its [try] block: it either returns after the
    effects listed, or goes on to request the insert of a row. *)
Inductive validation : Type :=
| Returned (effects : list effect)
| Accepted (row : Booking.t).

Definition validateBooking (clk : Clock) (st : State) : validation :=
  match user st, equipment st with
  | Some u, Some eq =>
      if User.id u =? Equipment.user_id eq then
        Returned [PreventDefault; Alert "You cannot book your own equipment"]
      else
        let startDate := new_Date (BookingData.startDate (bookingData st)) in
        let endDate := new_Date (BookingData.endDate (bookingData st)) in
        let today := setHours0 clk in
        if lt startDate today then
          Returned [PreventDefault; Alert "Start date cannot be in the past"]
        else if ge startDate endDate then
          Returned [PreventDefault; Alert "End date must be after start date"]
        else if lt (duration st) (ofZ 1) then
          Returned [PreventDefault; Alert "Minimum booking duration is 1 day"]
        else
          let subtotal := (duration st * Equipment.rate eq)%js in
          let serviceFee := Math_round (subtotal * Num (5 # 100))%js in
          let total := (subtotal + serviceFee)%js in
          Accepted
            {| Booking.equipment_id := Equipment.id eq;
               Booking.user_id := User.id u;
               Booking.start_date := BookingData.startDate (bookingData st);
               Booking.end_date := BookingData.endDate (bookingData st);
               Booking.days := duration st;
               Booking.rate_per_day := Equipment.rate eq;
               Booking.subtotal := subtotal;
               Booking.service_fee := serviceFee;
               Booking.total_amount := total;
               Booking.status := "pending";
               Booking.notes :=
                 if truthy_str (BookingData.notes (bookingData st))
                 then Some (BookingData.notes (bookingData st))
                 else None |}
  | _, _ => Returned [PreventDefault]
  end.

(** The state while the insert is in flight: [setSubmitting(true)]. *)
Definition awaitingInsert (st : State) : State := setSubmitting true st.

(** The rest of the [try] block once the store has answered, with the
    [catch] and [finally] blocks. *)
Definition afterInsert (resp : InsertResponse) (st : State) : State * list effect :=
  let (st', effects) :=
    match insert_error resp with
    | None =>
        (setShowBookingModal false st,
         [Alert "Booking request sent successfully! The owner will review and respond.";
          Navigate "/dashboard"])
    | Some err =>
        (st,
         [ConsoleError "Error creating booking:" err;
          Alert "Failed to submit booking request. Please try again."])
    end in
  (setSubmitting false st', effects).

Definition handleBookingSubmit (clk : Clock) (resp : InsertResponse) (st : State)
  : State * list effect :=
  match validateBooking clk st with
  | Returned effects => (st, effects)
  | Accepted row =>
      let (st', effects) := afterInsert resp (awaitingInsert st) in
      (st', PreventDefault :: Insert "bookings" row :: effects)
  end.

(** *** Rendering (lines 218-518)

    Of the markup only the parts that depend on the state are kept: which
    of the three screens is shown, the gallery, the booking button, and
    in the modal the price breakdown and the two action buttons. *)

Definition isOwner (st : State) : bool :=
  match user st, equipment st with
  | Some u, Some eq => User.id u =? Equipment.user_id eq
  | _, _ => false
  end.

Definition imagesToShow (st : State) : list string :=
  match equipment st with
  | Some eq => map Image.image_url (Equipment.images eq)
  | None => []
  end.

Inductive gallery : Type :=
| Gallery (large : option string) (thumbnails : list string)
| NoImages (text : string).

Record button : Type := mkButton
  { label : string;
    disabled : bool;
    onClick : option (State -> State) }.

Record priceBreakdown : Type := mkBreakdown
  { durationLine : number;
    subtotalLine : number;
    serviceFeeLine : number;
    totalLine : number }.

Record bookingModal : Type := mkModal
  { breakdown : option priceBreakdown;
    cancelButton : button;
    submitButton : button }.

Record detail : Type := mkDetail
  { images : gallery;
    bookButton : button;
    modal : option bookingModal }.

Inductive view : Type :=
| LoadingView
| NotFoundView (linkTo linkText : string)
| DetailView (d : detail).

Definition renderGallery (st : State) : gallery :=
  if (0 <? length (imagesToShow st))%nat then
    Gallery (nth_error (imagesToShow st) (currentImageIndex st))
            (if (1 <? length (imagesToShow st))%nat then imagesToShow st else [])
  else NoImages "No images available".

Definition renderBookButton (st : State) (eq : Equipment.t) : button :=
  if isOwner st then
    {| label := "Your Equipment"; disabled := true; onClick := None |}
  else
    {| label := "Book Now";
       disabled := negb (Equipment.status eq =? "available");
       onClick := Some (setShowBookingModal true) |}.

Definition renderModal (st : State) (eq : Equipment.t) : option bookingModal :=
  if showBookingModal st then
    Some
      {| breakdown :=
           if gt (duration st) (ofZ 0) then
             Some {| durationLine := duration st;
                     subtotalLine := (duration st * Equipment.rate eq)%js;
                     serviceFeeLine :=
                       Math_round (duration st * Equipment.rate eq * Num (5 # 100))%js;
                     totalLine := totalAmount st |}
           else None;
         cancelButton :=
           {| label := "Cancel";
              disabled := submitting st;
              onClick := Some (setShowBookingModal false) |};
         submitButton :=
           {| label := if submitting st then "Submitting..." else "Request Booking";
              disabled := submitting st || lt (duration st) (ofZ 1);
              onClick := None |} |}
  else None.

Definition render (st : State) : view :=
  if loading st then LoadingView
  else
    match equipment st with
    | None => NotFoundView "/equipment" "Back to Equipment"
    | Some eq =>
        DetailView
          {| images := renderGallery st;
             bookButton := renderBookButton st eq;
             modal := renderModal st eq |}
    end.

(** A click on a button: nothing happens when the button is disabled. *)
Definition click (b : button) (st : State) : State :=
  if disabled b then st
  else match onClick b with
       | Some handler => handler st
       | None => st
       end.

(** *** The page as a transition system *)

Inductive event : Type :=
| Fetched (resp : FetchResponse)
| ClickBook
| ClickCancel
| ClickClose
| ChangeDate (field : dateField) (value : string)
| ChangeNotes (value : string)
| SubmitForm (clk : Clock) (resp : InsertResponse)
| ClickThumbnail (index : nat).

(** What an event does through the controls of the screen that is
    currently shown; an event on a control that is not on the screen, or
    that is disabled, changes nothing. *)
Definition dispatch (ev : event) (st : State) : State * list effect :=
  match ev with
  | Fetched resp => fetchEquipmentDetails resp st
  | _ =>
      match render st with
      | DetailView d =>
          match ev, modal d with
          | ClickBook, _ => (click (bookButton d) st, [])
          | ClickThumbnail i, _ => (setCurrentImageIndex i st, [])
          | ClickCancel, Some m => (click (cancelButton m) st, [])
          | ClickClose, Some _ => (setShowBookingModal false st, [])
          | ChangeDate field value, Some _ => (handleDateChange field value st, [])
          | ChangeNotes value, Some _ => (handleNotesChange value st, [])
          | SubmitForm clk resp, Some m =>
              if disabled (submitButton m) then (st, [])
              else handleBookingSubmit clk resp st
          | _, _ => (st, [])
          end
      | _ => (st, [])
      end
  end.

(** One event followed by the render that commits it, after which the
    totals effect has run. *)
Definition step (ev : event) (st : State) : State * list effect :=
  let (st', effects) := dispatch ev st in
  (totalsEffect st', effects).

(** A date input hands over the empty string or a date that parses. *)
Definition dateInputValue (value : string) : Prop :=
  value = "" \/ exists t, Date_parse value = Some t.

Definition fromControls (ev : event) : Prop :=
  match ev with
  | ChangeDate _ value => dateInputValue value
  | _ => True
  end.

Inductive reachable (u : option User.t) : State -> Prop :=
| reachable_mount : reachable u (totalsEffect (initialState u))
| reachable_step ev st :
    reachable u st -> fromControls ev -> reachable u (fst (step ev st)).

(** *** Vocabulary of the properties *)

(** [n] is [x] rounded to the nearest integer, a tie going up. *)
Definition roundHalfUp (x : Q) (n : Z) : Prop :=
  (inject_Z n - (1 # 2) <= x /\ x < inject_Z n + (1 # 2))%Q.

(** The row that the handler builds from the state. *)
Definition bookingRow (u : User.t) (eq : Equipment.t) (st : State) : Booking.t :=
  {| Booking.equipment_id := Equipment.id eq;
     Booking.user_id := User.id u;
     Booking.start_date := BookingData.startDate (bookingData st);
     Booking.end_date := BookingData.endDate (bookingData st);
     Booking.days := duration st;
     Booking.rate_per_day := Equipment.rate eq;
     Booking.subtotal := (duration st * Equipment.rate eq)%js;
     Booking.service_fee :=
       Math_round (duration st * Equipment.rate eq * Num (5 # 100))%js;
     Booking.total_amount :=
       (duration st * Equipment.rate eq
        + Math_round (duration st * Equipment.rate eq * Num (5 # 100)))%js;
     Booking.status := "pending";
     Booking.notes :=
       if truthy_str (BookingData.notes (bookingData st))
       then Some (BookingData.notes (bookingData st))
       else None |}.

(** All the checks of the handler pass. *)
Definition checksPass (clk : Clock) (u : User.t) (eq : Equipment.t) (st : State) : Prop :=
  (User.id u =? Equipment.user_id eq)%string = false
  /\ JS.lt (new_Date (BookingData.startDate (bookingData st))) (setHours0 clk) = false
  /\ JS.ge (new_Date (BookingData.startDate (bookingData st)))
           (new_Date (BookingData.endDate (bookingData st))) = false
  /\ JS.lt (duration st) (ofZ 1) = false.

(** The duration that [handleDateChange] derives from a booking draft. *)
Definition durationOf (b : BookingData.t) : number :=
  if truthy_str (BookingData.startDate b) && truthy_str (BookingData.endDate b)
  then calculateDuration (BookingData.startDate b) (BookingData.endDate b)
  else ofZ 0.

(** What holds of the state between two events: the duration is the one
    of the draft, both date fields hold values of a date input, no
    submission is in flight and the displayed total is up to date. *)
Record consistent (st : State) : Prop := mkConsistent
  { duration_of_draft : duration st = durationOf (bookingData st);
    start_from_input : dateInputValue (BookingData.startDate (bookingData st));
    end_from_input : dateInputValue (BookingData.endDate (bookingData st));
    not_submitting : submitting st = false;
    totals_current : totalsEffect st = st }.

(** The state that an event leaves is the old one, or the result of one
    of the handlers and setters of the component. *)
Inductive handled (ev : event) (st : State) : State -> Prop :=
| handled_ignored : handled ev st st
| handled_fetch resp :
    ev = Fetched resp -> handled ev st (fst (fetchEquipmentDetails resp st))
| handled_open :
    ev = ClickBook -> handled ev st (setShowBookingModal true st)
| handled_close : handled ev st (setShowBookingModal false st)
| handled_date field value :
    ev = ChangeDate field value ->
    handled ev st (handleDateChange field value st)
| handled_notes value : handled ev st (handleNotesChange value st)
| handled_submit clk resp :
    handled ev st (fst (handleBookingSubmit clk resp st))
| handled_thumbnail i : handled ev st (setCurrentImageIndex i st).

Definition isInsert (e : effect) : bool :=
  match e with
  | Insert _ _ => true
  | _ => false
  end.

(** The same equipment with another availability status. *)
Definition withStatus (status : string) (eq : Equipment.t) : Equipment.t :=
  {| Equipment.id := Equipment.id eq;
     Equipment.title := Equipment.title eq;
     Equipment.description := Equipment.description eq;
     Equipment.type := Equipment.type eq;
     Equipment.location := Equipment.location eq;
     Equipment.rate := Equipment.rate eq;
     Equipment.status := status;
     Equipment.user_id := Equipment.user_id eq;
     Equipment.user_profiles := Equipment.user_profiles eq;
     Equipment.images := Equipment.images eq;
     Equipment.features := Equipment.features eq |}.

(** The price breakdown is on the screen. *)
Definition breakdownShown (v : view) : bool :=
  match v with
  | DetailView d =>
      match modal d with
      | Some m => match breakdown m with Some _ => true | None => false end
      | None => false
      end
  | _ => false
  end.

(** Two elements that the comparator does not order. *)
Definition tied {A : Type} (cmp : A -> A -> Z) (x y : A) : bool :=
  (cmp x y =? 0)%Z && (cmp y x =? 0)%Z.

(** [l'] is [l] sorted by the comparator, and stably: a rearrangement in
    which no element is followed by one that the comparator puts before
    it, and in which elements that the comparator does not order keep the
    order they have in [l]. *)
Definition stableSortOf {A : Type} (cmp : A -> A -> Z) (l l' : list A) : Prop :=
  Permutation l l'
  /\ ForallOrdPairs (fun x y => (cmp x y <= 0)%Z) l'
  /\ forall x, filter (tied cmp x) l' = filter (tied cmp x) l.

(** An image that is not flagged as the main one. *)
Definition nonMain (i : Image.t) : bool := negb (Image.is_main i).

End EquipmentDetails.

(** ** A date parser for the values of a date input

    The date-only form [YYYY-MM-DD] of the ECMAScript date-time string
    format, which is what a date input hands to its [onChange]; such a
    string denotes midnight UTC of that day.  It instantiates the host's
    parser wherever the handlers are run on concrete strings. *)

Local Open Scope Z_scope.

Module IsoDate.

Definition digit (c : Ascii.ascii) : option Z :=
  let n := Z.of_nat (Ascii.nat_of_ascii c) in
  if (48 <=? n) && (n <=? 57) then Some (n - 48) else None.

Fixpoint digits (cs : list Ascii.ascii) (acc : Z) : option Z :=
  match cs with
  | [] => Some acc
  | c :: cs' =>
      match digit c with
      | Some d => digits cs' (10 * acc + d)
      | None => None
      end
  end.

Definition isLeap (y : Z) : bool :=
  ((y mod 4 =? 0) && negb (y mod 100 =? 0)) || (y mod 400 =? 0).

Definition daysInMonth (y m : Z) : Z :=
  if m =? 2 then (if isLeap y then 29 else 28)
  else if (m =? 4) || (m =? 6) || (m =? 9) || (m =? 11) then 30
  else 31.

(** Days from 1970-01-01 to the given day of the proleptic Gregorian
    calendar. *)
Definition daysFromCivil (y m d : Z) : Z :=
  let y' := if m <=? 2 then y - 1 else y in
  let era := y' / 400 in
  let yoe := y' - era * 400 in
  let mp := (m + 9) mod 12 in
  let doy := (153 * mp + 2) / 5 + d - 1 in
  let doe := yoe * 365 + yoe / 4 - yoe / 100 + doy in
  era * 146097 + doe - 719468.

Definition parse (s : string) : option Z :=
  match list_ascii_of_string s with
  | [y1; y2; y3; y4; "-"%char; m1; m2; "-"%char; d1; d2] =>
      match digits [y1; y2; y3; y4] 0, digits [m1; m2] 0, digits [d1; d2] 0 with
      | Some y, Some m, Some d =>
          if (1 <=? m) && (m <=? 12) && (1 <=? d) && (d <=? daysInMonth y m)
          then Some (daysFromCivil y m d * 86400000)
          else None
      | _, _, _ => None
      end
  | _ => None
  end.

End IsoDate.

(** ** The same arithmetic in binary64

    The numbers of the page are IEEE 754 doubles.  The two computations
    that leave the integers, the 5% fee and the division by the length of a
    day, are repeated here on doubles, each operation rounding to nearest
    even, so that the exact model above can be compared with them. *)

Module Binary64.

Definition prec : Z := 53.
Definition emax : Z := 1024.

Definition ofInt (n : Z) : spec_float := binary_normalize prec emax n 0 false.
Definition mul : spec_float -> spec_float -> spec_float := SFmul prec emax.
Definition div : spec_float -> spec_float -> spec_float := SFdiv prec emax.
Definition sub : spec_float -> spec_float -> spec_float := SFsub prec emax.

(** The rational that a finite double stands for. *)
Definition value (x : spec_float) : option Q :=
  match x with
  | S754_zero _ => Some 0%Q
  | S754_finite s m e =>
      let n := if s then Zneg m else Zpos m in
      Some (if 0 <=? e then inject_Z (n * 2 ^ e) else (n # (2 ^ Z.to_pos (- e)))%Q)
  | _ => None
  end.

Definition Math_round (x : spec_float) : option Z :=
  option_map (fun q => Qfloor (q + (1 # 2))) (value x).

Definition Math_ceil (x : spec_float) : option Z :=
  option_map Qceiling (value x).

(** The literal [0.05]: the double nearest to 1/20. *)
Definition lit_0_05 : spec_float := div (ofInt 5) (ofInt 100).

(** [Math.round(duration * rate * 0.05)] *)
Definition serviceFee (duration rate : Z) : option Z :=
  let subtotal := mul (ofInt duration) (ofInt rate) in
  Math_round (mul subtotal lit_0_05).

(** [Math.ceil(Math.abs(end - start) / (1000 * 60 * 60 * 24))] *)
Definition days (start end_ : Z) : option Z :=
  let diffTime := SFabs (sub (ofInt end_) (ofInt start)) in
  Math_ceil (div diffTime (mul (mul (mul (ofInt 1000) (ofInt 60)) (ofInt 60)) (ofInt 24))).

(** A number of the exact model and an integer computed on doubles are
    the same. *)
Definition agrees (n : number) (z : option Z) : bool :=
  match n, z with
  | Num q, Some f => Qeq_bool q (inject_Z f)
  | _, _ => false
  end.

Definition feeAgrees (duration rate : Z) : bool :=
  agrees (JS.Math_round (ofZ duration * ofZ rate * Num (5 # 100))%js)
         (serviceFee duration rate).

Definition daysAgree (start end_ : string) : bool :=
  match IsoDate.parse start, IsoDate.parse end_ with
  | Some a, Some b => agrees (calculateDuration IsoDate.parse start end_) (days a b)
  | _, _ => false
  end.

(** The integers [from], [from + 1], ..., [n] of them. *)
Fixpoint upto (n : nat) (from : Z) : list Z :=
  match n with
  | O => []
  | S k => from :: upto k (from + 1)
  end.

Definition sampleDates : list string :=
  ["0001-01-01"; "1969-12-31"; "1970-01-01"; "1999-12-31"; "2000-02-29";
   "2024-02-29"; "2029-12-31"; "2030-01-01"; "2030-01-02"; "2030-01-04";
   "2030-03-01"; "2031-01-01"; "2100-03-01"; "9999-12-31"]%string.

End Binary64.

(** ** The date part of [toISOString]

    [new Date(t).toISOString().split('T')[0]]: the UTC calendar day of a
    time value, written [YYYY-MM-DD]; years outside 0 to 9999 take a sign
    and six digits. *)

Module IsoString.

(** Year, month and day of the proleptic Gregorian calendar for a number
    of days from 1970-01-01. *)
Definition civilFromDays (z : Z) : Z * Z * Z :=
  let z := z + 719468 in
  let era := z / 146097 in
  let doe := z - era * 146097 in
  let yoe := (doe - doe / 1460 + doe / 36524 - doe / 146096) / 365 in
  let doy := doe - (365 * yoe + yoe / 4 - yoe / 100) in
  let mp := (5 * doy + 2) / 153 in
  let d := doy - (153 * mp + 2) / 5 + 1 in
  let m := if mp <? 10 then mp + 3 else mp - 9 in
  let y := yoe + era * 400 in
  (if m <=? 2 then y + 1 else y, m, d).

Definition digitChar (n : Z) : Ascii.ascii :=
  Ascii.ascii_of_nat (Z.to_nat (48 + n mod 10)).

(** The last [width] decimal digits of [n], most significant first. *)
Fixpoint padded (width : nat) (n : Z) (tail : string) : string :=
  match width with
  | O => tail
  | S w => padded w (n / 10) (String (digitChar n) tail)
  end.

Definition toISODate (t : Z) : string :=
  let '(y, m, d) := civilFromDays (t / 86400000) in
  let rest := String "-" (padded 2 m (String "-" (padded 2 d EmptyString))) in
  if (0 <=? y) && (y <=? 9999) then padded 4 y rest
  else String (if y <? 0 then "-"%char else "+"%char) (padded 6 (Z.abs y) rest).

End IsoString.

(** ** Further parts of the component *)

Section Further.

Variable Date_parse : string -> option Z.

(** The date part of [toISOString], the host's. *)
Variable toISODate : Z -> string.

(** *** checkAuth (lines 77-82), on the answer of [supabase.auth.getUser] *)

Definition checkAuth (currentUser : option User.t) : list effect :=
  match currentUser with
  | None => [Navigate "/auth"]
  | Some _ => []
  end.

(** *** The effect of lines 60-64: fetch when the route has an id *)

Definition fetchOnId (id : option string) (resp : FetchResponse) (st : State)
  : State * list effect :=
  match id with
  | Some i => if truthy_str i then fetchEquipmentDetails resp st else (st, [])
  | None => (st, [])
  end.

(** *** The provider card (lines 357-370) *)

(** [company_name || full_name || 'Equipment Owner'] on the optional
    profile. *)
Definition providerName (eq : Equipment.t) : string :=
  match Equipment.user_profiles eq with
  | Some p =>
      if truthy_str (UserProfile.company_name p) then UserProfile.company_name p
      else if truthy_str (UserProfile.full_name p) then UserProfile.full_name p
      else "Equipment Owner"
  | None => "Equipment Owner"
  end.

(** *** The features section (lines 291-303) *)

Definition renderFeatures (eq : Equipment.t) : option (list string) :=
  if (0 <? length (Equipment.features eq))%nat then Some (Equipment.features eq)
  else None.

(** *** The thumbnails (lines 266-281) *)

(** The border of the thumbnail at [index] marks the selected image. *)
Definition thumbnailSelected (st : State) (index : nat) : bool :=
  (currentImageIndex st =? index)%nat.

(** *** The [min] attributes of the date inputs (lines 427 and 442) *)

Definition startDateMin (clk : Clock) : string := toISODate (now clk).

Definition endDateMin (clk : Clock) (st : State) : string :=
  if truthy_str (BookingData.startDate (bookingData st))
  then BookingData.startDate (bookingData st)
  else toISODate (now clk).

(** *** Runs of the page *)

(** The state after a list of events, the first one first. *)
Fixpoint run (evs : list event) (st : State) : State :=
  match evs with
  | [] => st
  | ev :: evs' => run evs' (fst (step Date_parse ev st))
  end.

Definition isFetched (ev : event) : bool :=
  match ev with
  | Fetched _ => true
  | _ => false
  end.

(** The answer of the store carries a row and no error. *)
Definition succeeded (resp : FetchResponse) (d : EquipmentRow.t) : Prop :=
  error resp = None /\ data resp = Some d.

(** One number is at most another. *)
Definition atMost (a b : number) : Prop :=
  match a, b with
  | Num x, Num y => (x <= y)%Q
  | _, _ => False
  end.

End Further.

(** ** A session on the page

    A renter opens the page of an excavator offered at 100 a day, opens the
    booking form and picks 1 to 4 January 2030; the clock stands at 10:00
    UTC on 31 December 2029, in a zone two hours ahead of UTC. *)

Module Scenario.

Definition renter : User.t := User.mk "renter-1".

Definition front : Image.t := Image.mk "img-1" "https://img/front.jpg" false.
Definition cover : Image.t := Image.mk "img-2" "https://img/cover.jpg" true.
Definition side : Image.t := Image.mk "img-3" "https://img/side.jpg" false.

Definition excavator : EquipmentRow.t :=
  {| EquipmentRow.id := "eq-1";
     EquipmentRow.title := "Excavator";
     EquipmentRow.description := "20 t tracked excavator";
     EquipmentRow.type := "earthmoving";
     EquipmentRow.location := "Durban";
     EquipmentRow.rate := ofZ 100;
     EquipmentRow.status := "available";
     EquipmentRow.user_id := "owner-1";
     EquipmentRow.user_profiles := None;
     EquipmentRow.equipment_images := Some [front; cover; side];
     EquipmentRow.features := None |}.

Definition clock : Clock :=
  {| now := IsoDate.daysFromCivil 2029 12 31 * 86400000 + 36000000;
     tzOffset := 7200000 |}.

Definition found : FetchResponse := mkFetchResponse (Some excavator) None.
Definition missing : FetchResponse := mkFetchResponse None (Some "PGRST116").
Definition stored : InsertResponse := mkInsertResponse None.
Definition refused : InsertResponse := mkInsertResponse (Some "row-level security").

Definition mounted : State := totalsEffect (initialState (Some renter)).
Definition loaded : State := fst (step IsoDate.parse (Fetched found) mounted).
Definition opened : State := fst (step IsoDate.parse ClickBook loaded).
Definition started : State :=
  fst (step IsoDate.parse (ChangeDate startDate "2030-01-01") opened).
Definition drafted : State :=
  fst (step IsoDate.parse (ChangeDate endDate "2030-01-04") started).

(** The equipment in the state once the fetch has succeeded. *)
Definition shown : Equipment.t :=
  {| Equipment.id := "eq-1";
     Equipment.title := "Excavator";
     Equipment.description := "20 t tracked excavator";
     Equipment.type := "earthmoving";
     Equipment.location := "Durban";
     Equipment.rate := ofZ 100;
     Equipment.status := "available";
     Equipment.user_id := "owner-1";
     Equipment.user_profiles := None;
     Equipment.images := [cover; front; side];
     Equipment.features := [] |}.

End Scenario.

(** ** Further sessions

    A visitor without a session on the same page; the renter on a clock
    five hours behind UTC, at 10:00 UTC on 31 December 2029; the renter
    picking the end date before the start date; and a second row with a
    single image. *)

Module Visit.

Definition anonymous : State :=
  fst (step IsoDate.parse (Fetched Scenario.found) (totalsEffect (initialState None))).

Definition behindUtc : Clock :=
  {| now := IsoDate.daysFromCivil 2029 12 31 * 86400000 + 36000000;
     tzOffset := -18000000 |}.

Definition earliest : State :=
  fst (step IsoDate.parse
         (ChangeDate startDate (startDateMin IsoString.toISODate behindUtc))
         Scenario.opened).

Definition inverted : State :=
  totalsEffect
    (handleDateChange IsoDate.parse endDate "2030-01-01"
       (handleDateChange IsoDate.parse startDate "2030-01-04" Scenario.opened)).

Definition trailer : EquipmentRow.t :=
  {| EquipmentRow.id := "eq-2";
     EquipmentRow.title := "Trailer";
     EquipmentRow.description := "Flatbed trailer";
     EquipmentRow.type := "transport";
     EquipmentRow.location := "Durban";
     EquipmentRow.rate := ofZ 40;
     EquipmentRow.status := "rented";
     EquipmentRow.user_id := "owner-1";
     EquipmentRow.user_profiles :=
       Some (UserProfile.mk "owner-1" "" "Thandi Nkosi" "thandi@example.org");
     EquipmentRow.equipment_images := Some [Scenario.side];
     EquipmentRow.features := Some ["2 axles"; "3.5 t"] |}.

Definition trailerFound : FetchResponse := mkFetchResponse (Some trailer) None.

(** The third thumbnail of the excavator is selected. *)
Definition thirdImage : State :=
  fst (step IsoDate.parse (ClickThumbnail 2) Scenario.loaded).

End Visit.

(** ** Properties *)

(** *** Numbers *)

Lemma lt_ofZ (a b : Z) : JS.lt (ofZ a) (ofZ b) = (a <? b).
Proof.
  unfold JS.lt, ofZ, Qlt_bool, Qle_bool, inject_Z; simpl.
  rewrite !Z.mul_1_r. apply eq_sym, Z.ltb_antisym.
Qed.

Lemma ge_ofZ (a b : Z) : JS.ge (ofZ a) (ofZ b) = (b <=? a).
Proof.
  unfold JS.ge, ofZ, Qle_bool, inject_Z; simpl.
  now rewrite !Z.mul_1_r.
Qed.

Lemma lt_ge_Num (x y : Q) : JS.lt (Num x) (Num y) = negb (JS.ge (Num x) (Num y)).
Proof. reflexivity. Qed.

Lemma same_refl (a : number) : JS.same a a.
Proof. destruct a; simpl; [reflexivity | exact I]. Qed.

Lemma Qceiling_quot (m : Z) (D : positive) :
  Qceiling (inject_Z m / inject_Z (Zpos D)) = - ((- m) / Zpos D).
Proof.
  unfold Qceiling, Qfloor, Qdiv, Qmult, Qinv, Qopp, inject_Z; simpl.
  now rewrite Z.mul_1_r.
Qed.

Lemma ceil_quot_bounds (m : Z) (D : positive) :
  Zpos D * (- ((- m) / Zpos D) - 1) < m <= Zpos D * - ((- m) / Zpos D).
Proof.
  pose proof (Z.div_mod (- m) (Zpos D) ltac:(lia)).
  pose proof (Z.mod_pos_bound (- m) (Zpos D) ltac:(lia)).
  nia.
Qed.

Lemma Qabs_diff (a b : Z) :
  Qabs (inject_Z b - inject_Z a) == inject_Z (Z.abs (b - a)).
Proof.
  unfold Qabs, Qminus, Qplus, Qopp, inject_Z, Qeq; simpl.
  now rewrite !Z.mul_1_r.
Qed.

Local Open Scope list_scope.

Section Properties.

(** The host's date parser, as in the component. *)
Variable parse : string -> option Z.

(** *** Duration *)

Lemma calculateDuration_valid (s e : string) (a b : Z) :
  parse s = Some a -> parse e = Some b ->
  calculateDuration parse s e = ofZ (- ((- Z.abs (b - a)) / 86400000)).
Proof.
  intros Hs He. unfold calculateDuration, new_Date, getTime.
  rewrite Hs, He. unfold ofZ.
  cbn [JS.sub JS.div JS.mul Math_abs Math_ceil]. unfold ofZ. do 2 f_equal.
  rewrite <- (Qceiling_quot (Z.abs (b - a)) 86400000).
  apply Qceiling_comp. rewrite Qabs_diff. reflexivity.
Qed.

Lemma calculateDuration_invalid_start (s e : string) :
  parse s = None -> calculateDuration parse s e = NaN.
Proof.
  intros Hs. unfold calculateDuration, new_Date. rewrite Hs.
  now destruct (parse e).
Qed.

Lemma calculateDuration_invalid_end (s e : string) :
  parse e = None -> calculateDuration parse s e = NaN.
Proof.
  intros He. unfold calculateDuration, new_Date. rewrite He.
  now destruct (parse s).
Qed.

(** *** Rounding *)
Lemma roundHalfUp_floor (x : Q) : roundHalfUp x (Qfloor (x + (1 # 2))).
Proof.
  unfold roundHalfUp.
  pose proof (Qfloor_le (x + (1 # 2))) as Hle.
  pose proof (Qlt_floor (x + (1 # 2))) as Hlt.
  rewrite inject_Z_plus in Hlt. change (inject_Z 1) with 1%Q in Hlt.
  split; lra.
Qed.

Lemma roundHalfUp_unique (x : Q) (n m : Z) :
  roundHalfUp x n -> roundHalfUp x m -> n = m.
Proof.
  unfold roundHalfUp. intros [Hn1 Hn2] [Hm1 Hm2].
  assert (inject_Z n < inject_Z m + 1)%Q as H1 by lra.
  assert (inject_Z m < inject_Z n + 1)%Q as H2 by lra.
  change 1%Q with (inject_Z 1) in H1, H2.
  rewrite <- inject_Z_plus, <- Zlt_Qlt in H1, H2. lia.
Qed.

(** *** Validation in the submit handler *)

Lemma validateBooking_pass (clk : Clock) (u : User.t) (eq : Equipment.t) (st : State) :
  user st = Some u -> equipment st = Some eq -> checksPass parse clk u eq st ->
  validateBooking parse clk st = Accepted (bookingRow u eq st).
Proof.
  intros Hu He (Hown & Hpast & Horder & Hmin).
  unfold validateBooking. rewrite Hu, He, Hown, Hpast, Horder, Hmin.
  reflexivity.
Qed.

Lemma validateBooking_Accepted (clk : Clock) (st : State) (row : Booking.t) :
  validateBooking parse clk st = Accepted row ->
  exists u eq,
    user st = Some u /\ equipment st = Some eq /\ checksPass parse clk u eq st
    /\ row = bookingRow u eq st.
Proof.
  unfold validateBooking, checksPass.
  destruct (user st) as [u|]; [|discriminate].
  destruct (equipment st) as [eq|]; [|discriminate].
  destruct (User.id u =? Equipment.user_id eq)%string eqn:Hown; [discriminate|].
  destruct (JS.lt _ (setHours0 clk)) eqn:Hpast; [discriminate|].
  destruct (JS.ge _ _) eqn:Horder; [discriminate|].
  destruct (JS.lt (duration st) (ofZ 1)) eqn:Hmin; [discriminate|].
  intros H. injection H as <-. exists u, eq. repeat split; auto.
Qed.

(** *** The totals effect *)

Lemma totalsEffect_fields (st : State) :
  user (totalsEffect st) = user st
  /\ equipment (totalsEffect st) = equipment st
  /\ loading (totalsEffect st) = loading st
  /\ showBookingModal (totalsEffect st) = showBookingModal st
  /\ bookingData (totalsEffect st) = bookingData st
  /\ duration (totalsEffect st) = duration st
  /\ submitting (totalsEffect st) = submitting st
  /\ currentImageIndex (totalsEffect st) = currentImageIndex st.
Proof.
  unfold totalsEffect. destruct (equipment st) as [eq|] eqn:He.
  - destruct (JS.gt (duration st) (ofZ 0) && truthy (Equipment.rate eq));
      cbn; rewrite He; repeat split.
  - cbn; rewrite He; repeat split.
Qed.

Lemma totalsEffect_idempotent (st : State) :
  totalsEffect (totalsEffect st) = totalsEffect st.
Proof.
  unfold totalsEffect. destruct (equipment st) as [eq|] eqn:He.
  - destruct (JS.gt (duration st) (ofZ 0) && truthy (Equipment.rate eq)) eqn:Hc;
      cbn [equipment duration setTotalAmount]; rewrite He, ?Hc; reflexivity.
  - cbn [equipment duration setTotalAmount]; rewrite He; reflexivity.
Qed.

(** *** Pricing *)

Lemma gt_duration_pos (d : Z) : 1 <= d -> JS.gt (ofZ d) (ofZ 0) = true.
Proof. intros Hd. unfold JS.gt. rewrite lt_ofZ. apply Z.ltb_lt. lia. Qed.

Lemma totalsEffect_total (st : State) (eq : Equipment.t) (d : Z) (r : Q) :
  equipment st = Some eq -> duration st = ofZ d -> Equipment.rate eq = Num r ->
  1 <= d ->
  JS.same (totalAmount (totalsEffect st))
          (Num (inject_Z d * r
                + inject_Z (Qfloor (inject_Z d * r * (5 # 100) + (1 # 2))))).
Proof.
  intros He Hd Hr Hpos. unfold totalsEffect.
  rewrite He, Hd, Hr, (gt_duration_pos d Hpos). cbn [andb truthy].
  destruct (Qeq_bool r 0) eqn:Hz; cbn [negb].
  - apply Qeq_bool_eq in Hz. cbn [totalAmount setTotalAmount JS.same ofZ].
    assert (inject_Z d * r * (5 # 100) + (1 # 2) == 1 # 2)%Q as Hq
      by (rewrite Hz; ring).
    rewrite Hq, Hz. change (Qfloor (1 # 2)) with 0. ring.
  - apply same_refl.
Qed.


(** *** The state between events *)

Lemma handleDateChange_duration (field : dateField) (value : string) (st : State) :
  duration (handleDateChange parse field value st)
  = durationOf parse (bookingData (handleDateChange parse field value st)).
Proof.
  unfold handleDateChange, durationOf.
  destruct field; cbn [BookingData.startDate BookingData.endDate];
    match goal with
    | |- context [if ?c then _ else _] => destruct c eqn:Hc
    end;
    cbn [bookingData setDuration setBookingData duration
         BookingData.startDate BookingData.endDate];
    rewrite Hc; reflexivity.
Qed.

Lemma handleDateChange_fields (field : dateField) (value : string) (st : State) :
  let st' := handleDateChange parse field value st in
  BookingData.startDate (bookingData st')
  = match field with
    | startDate => value
    | endDate => BookingData.startDate (bookingData st)
    end
  /\ BookingData.endDate (bookingData st')
     = match field with
       | startDate => BookingData.endDate (bookingData st)
       | endDate => value
       end
  /\ BookingData.notes (bookingData st') = BookingData.notes (bookingData st)
  /\ submitting st' = submitting st
  /\ equipment st' = equipment st
  /\ user st' = user st
  /\ showBookingModal st' = showBookingModal st
  /\ loading st' = loading st.
Proof.
  unfold handleDateChange.
  destruct field; cbn [BookingData.startDate BookingData.endDate];
    match goal with
    | |- context [if ?c then _ else _] => destruct c
    end; repeat split.
Qed.

Lemma handleBookingSubmit_state (clk : Clock) (resp : InsertResponse) (st : State) :
  let st' := fst (handleBookingSubmit parse clk resp st) in
  user st' = user st
  /\ equipment st' = equipment st
  /\ loading st' = loading st
  /\ bookingData st' = bookingData st
  /\ duration st' = duration st
  /\ totalAmount st' = totalAmount st
  /\ (submitting st = false -> submitting st' = false).
Proof.
  unfold handleBookingSubmit, afterInsert, awaitingInsert.
  destruct (validateBooking parse clk st); [cbn; repeat split; auto|].
  destruct (insert_error resp); cbn; repeat split.
Qed.

Lemma fetchEquipmentDetails_state (resp : FetchResponse) (st : State) :
  let st' := fst (fetchEquipmentDetails resp st) in
  user st' = user st
  /\ loading st' = false
  /\ showBookingModal st' = showBookingModal st
  /\ bookingData st' = bookingData st
  /\ duration st' = duration st
  /\ submitting st' = submitting st.
Proof.
  unfold fetchEquipmentDetails.
  destruct (error resp); [cbn; repeat split|].
  destruct (data resp); cbn; repeat split.
Qed.

Lemma render_detail (st : State) (d : detail) :
  render st = DetailView d ->
  exists eq,
    equipment st = Some eq /\ loading st = false
    /\ d = {| images := renderGallery st;
              bookButton := renderBookButton st eq;
              modal := renderModal st eq |}.
Proof.
  unfold render. destruct (loading st); [discriminate|].
  destruct (equipment st) as [eq|]; [|discriminate].
  intros H. injection H as <-. exists eq. auto.
Qed.

Lemma dispatch_handled (ev : event) (st : State) :
  handled parse ev st (fst (dispatch parse ev st)).
Proof.
  unfold dispatch.
  destruct ev as [resp| | | |field value|value|clk resp|i];
    [now apply handled_fetch with (resp := resp)|..];
    (destruct (render st) as [| |d] eqn:Hr; [apply handled_ignored..|]);
    apply render_detail in Hr as (eq & He & Hl & ->);
    cbn [modal bookButton]; unfold renderModal, renderBookButton, click;
    repeat first
      [ apply handled_ignored
      | apply handled_close
      | now apply handled_open
      | now apply handled_date
      | apply handled_notes
      | apply handled_submit
      | apply handled_thumbnail
      | match goal with
        | |- context [if ?c then _ else _] => destruct c
        end
      | progress cbn ].
Qed.

Lemma handled_consistent (ev : event) (st st' : State) :
  handled parse ev st st' -> fromControls parse ev ->
  consistent parse st -> consistent parse (totalsEffect st').
Proof.
  intros Hh Hev [Hd Hs He Hsub _].
  destruct (totalsEffect_fields st') as (_ & _ & _ & _ & Hb' & Hd' & Hs' & _).
  constructor; rewrite ?Hb', ?Hd', ?Hs'; [..|apply totalsEffect_idempotent];
    destruct Hh as [|resp Hr| | |field value Hr|value|clk resp|i]; auto.
  - destruct (fetchEquipmentDetails_state resp st) as (_ & _ & _ & Hb & Hdu & _).
    cbn zeta in *. now rewrite Hb, Hdu.
  - apply handleDateChange_duration.
  - destruct (handleBookingSubmit_state clk resp st) as (_ & _ & _ & Hb & Hdu & _).
    cbn zeta in *. now rewrite Hb, Hdu.
  - destruct (fetchEquipmentDetails_state resp st) as (_ & _ & _ & Hb & _).
    cbn zeta in *. now rewrite Hb.
  - subst ev. cbn in Hev.
    destruct (handleDateChange_fields field value st) as (Hst & _).
    cbn zeta in Hst. rewrite Hst. now destruct field.
  - destruct (handleBookingSubmit_state clk resp st) as (_ & _ & _ & Hb & _).
    cbn zeta in *. now rewrite Hb.
  - destruct (fetchEquipmentDetails_state resp st) as (_ & _ & _ & Hb & _).
    cbn zeta in *. now rewrite Hb.
  - subst ev. cbn in Hev.
    destruct (handleDateChange_fields field value st) as (_ & Hen & _).
    cbn zeta in Hen. rewrite Hen. now destruct field.
  - destruct (handleBookingSubmit_state clk resp st) as (_ & _ & _ & Hb & _).
    cbn zeta in *. now rewrite Hb.
  - destruct (fetchEquipmentDetails_state resp st) as (_ & _ & _ & _ & _ & Hsu).
    cbn zeta in *. now rewrite Hsu.
  - destruct (handleDateChange_fields field value st) as (_ & _ & _ & Hsu & _).
    cbn zeta in *. now rewrite Hsu.
  - destruct (handleBookingSubmit_state clk resp st) as (_ & _ & _ & _ & _ & _ & Hsu).
    cbn zeta in *. auto.
Qed.

Lemma mount_consistent (u : option User.t) :
  consistent parse (totalsEffect (initialState u)).
Proof.
  constructor; try reflexivity; left; reflexivity.
Qed.

Lemma reachable_consistent (u : option User.t) (st : State) :
  reachable parse u st -> consistent parse st.
Proof.
  induction 1 as [|ev st Hreach IH Hev].
  - apply mount_consistent.
  - unfold step. destruct (dispatch parse ev st) as [st' effects] eqn:Hdis.
    cbn [fst]. apply handled_consistent with (ev := ev) (st := st); auto.
    replace st' with (fst (dispatch parse ev st)) by now rewrite Hdis.
    apply dispatch_handled.
Qed.

(** *** Duration of the selected range *)

Lemma truthy_str_false (s : string) : truthy_str s = false <-> s = "".
Proof. destruct s; cbn; split; congruence. Qed.

Lemma truthy_str_true (s : string) : truthy_str s = true <-> s <> "".
Proof. destruct s; cbn; split; congruence. Qed.


(** *** Rejected submissions *)

Lemma new_Date_NaN (s : string) : new_Date parse s = NaN <-> parse s = None.
Proof.
  unfold new_Date. destruct (parse s); split; intros H; try discriminate; auto.
Qed.

Lemma not_lt_not_ge (a b : number) :
  JS.lt a b = false -> JS.ge a b = false -> a = NaN \/ b = NaN.
Proof.
  destruct a as [x|]; [|now left]. destruct b as [y|]; [|now right].
  rewrite lt_ge_Num. intros H1 H2. rewrite H2 in H1. discriminate.
Qed.

(** Between events, a date field that does not parse is empty, and the
    duration is then 0. *)
Lemma consistent_unparsed_duration (st : State) :
  consistent parse st ->
  parse (BookingData.startDate (bookingData st)) = None
  \/ parse (BookingData.endDate (bookingData st)) = None ->
  duration st = ofZ 0.
Proof.
  intros [Hd Hs He _ _] Hnone. rewrite Hd. unfold durationOf.
  destruct Hnone as [Hn|Hn].
  - destruct Hs as [-> | [t Ht]]; [reflexivity|congruence].
  - destruct He as [-> | [t Ht]]; [now rewrite andb_false_r|congruence].
Qed.

Lemma setHours0_midnight (clk : Clock) :
  exists t : Z,
    setHours0 clk = ofZ t
    /\ (t + tzOffset clk) mod 86400000 = 0
    /\ t <= now clk < t + 86400000.
Proof.
  unfold setHours0.
  set (local := now clk + tzOffset clk).
  exists (local - local mod 86400000 - tzOffset clk). split; [reflexivity|].
  pose proof (Z.mod_pos_bound local 86400000 ltac:(lia)) as Hb.
  split.
  - replace (local - local mod 86400000 - tzOffset clk + tzOffset clk)
      with (local - local mod 86400000) by lia.
    rewrite Zminus_mod, Z.mod_mod, Z.sub_diag by lia. reflexivity.
  - subst local. lia.
Qed.

Lemma isOwner_eq (st : State) (u : User.t) (eq : Equipment.t) :
  user st = Some u -> equipment st = Some eq ->
  isOwner st = (User.id u =? Equipment.user_id eq)%string.
Proof. intros Hu He. unfold isOwner. now rewrite Hu, He. Qed.

(** The effects of a handler that returned before its [try] block hold
    no insert. *)
Lemma validateBooking_Returned (clk : Clock) (st : State) (effects : list effect) :
  validateBooking parse clk st = Returned effects ->
  forall table row, ~ In (Insert table row) effects.
Proof.
  unfold validateBooking.
  destruct (user st) as [u|]; [destruct (equipment st) as [eq|]|];
    repeat match goal with
      | |- context [if ?c then _ else _] => destruct c
      end;
    intros H; try discriminate; injection H as <-;
    intros table row Hin; cbn in Hin; intuition discriminate.
Qed.

(** C3: a submission by the owner, or with a start date before the
    midnight that begins the current local day (as is every date, read as
    midnight UTC, of a calendar day before the local one), or with a start
    date at or after the end date, or with a duration below 1, returns
    without an insert and leaves the state as it is; between the events of the page
    the same holds whenever the start date is not strictly before the end
    date, a missing date included; the four checks are made in this order
    and the first one that fails raises its alert. *)
Theorem submit_rejected_without_insert
    (clk : Clock) (resp : InsertResponse) (st : State) :
  let start := new_Date parse (BookingData.startDate (bookingData st)) in
  let end_ := new_Date parse (BookingData.endDate (bookingData st)) in
  let today := setHours0 clk in
  let out := handleBookingSubmit parse clk resp st in
  (exists t : Z,
      today = ofZ t /\ (t + tzOffset clk) mod 86400000 = 0
      /\ t <= now clk < t + 86400000)
  /\ (forall s : Z,
         parse (BookingData.startDate (bookingData st)) = Some s ->
         s mod 86400000 = 0 -> tzOffset clk < 86400000 ->
         s / 86400000 < (now clk + tzOffset clk) / 86400000 ->
         JS.lt start today = true)
  /\ (isOwner st = true \/ JS.lt start today = true
      \/ JS.ge start end_ = true \/ JS.lt (duration st) (ofZ 1) = true ->
      (forall table row, ~ In (Insert table row) (snd out)) /\ fst out = st)
  /\ (forall u0 : option User.t,
         reachable parse u0 st -> JS.lt start end_ = false ->
         (forall table row, ~ In (Insert table row) (snd out)) /\ fst out = st)
  /\ (forall u eq,
         user st = Some u -> equipment st = Some eq ->
         (isOwner st = true ->
          snd out = [PreventDefault; Alert "You cannot book your own equipment"])
         /\ (isOwner st = false -> JS.lt start today = true ->
             snd out = [PreventDefault; Alert "Start date cannot be in the past"])
         /\ (isOwner st = false -> JS.lt start today = false ->
             JS.ge start end_ = true ->
             snd out = [PreventDefault; Alert "End date must be after start date"])
         /\ (isOwner st = false -> JS.lt start today = false ->
             JS.ge start end_ = false -> JS.lt (duration st) (ofZ 1) = true ->
             snd out = [PreventDefault; Alert "Minimum booking duration is 1 day"])).
Proof.
  intros start end_ today out.
  assert (forall effects,
             validateBooking parse clk st = Returned effects ->
             (forall table row, ~ In (Insert table row) (snd out)) /\ fst out = st)
    as Hreturned.
  { intros effects Hv. subst out. unfold handleBookingSubmit. rewrite Hv.
    split; [|reflexivity]. cbn [snd].
    now apply validateBooking_Returned with (clk := clk) (st := st). }
  split; [apply setHours0_midnight|split; [|split; [|split]]].
  - intros s Hs Hmid Htz Hday. subst start today.
    unfold new_Date, setHours0. rewrite Hs, lt_ofZ. apply Z.ltb_lt.
    pose proof (Z.div_mod s 86400000 ltac:(lia)) as Hds.
    pose proof (Z.div_mod (now clk + tzOffset clk) 86400000 ltac:(lia)) as Hdl.
    lia.
  - intros Hfail.
    destruct (validateBooking parse clk st) as [effects|row] eqn:Hv;
      [now apply (Hreturned effects)|exfalso].
    apply validateBooking_Accepted in Hv
      as (u & eq & Hu & He & (Hown & Hpast & Horder & Hmin) & _).
    destruct Hfail as [Ho|[Hp|[Hge|Hd]]].
    + rewrite (isOwner_eq st u eq Hu He) in Ho. congruence.
    + subst start today. congruence.
    + subst start end_. congruence.
    + congruence.
  - intros u0 Hreach Hlt. apply reachable_consistent in Hreach.
    destruct (validateBooking parse clk st) as [effects|row] eqn:Hv;
      [now apply (Hreturned effects)|exfalso].
    apply validateBooking_Accepted in Hv
      as (u & eq & Hu & He & (Hown & Hpast & Horder & Hmin) & _).
    destruct (not_lt_not_ge _ _ Hlt Horder) as [Hn|Hn];
      apply new_Date_NaN in Hn;
      rewrite (consistent_unparsed_duration st Hreach) in Hmin by auto;
      discriminate.
  - intros u eq Hu He. rewrite (isOwner_eq st u eq Hu He).
    subst out start end_ today.
    unfold handleBookingSubmit, validateBooking. rewrite Hu, He.
    repeat split; intros; repeat match goal with
                                 | H : _ = true |- _ => rewrite H
                                 | H : _ = false |- _ => rewrite H
                                 end; reflexivity.
Qed.

(** *** Accepted submissions *)

Lemma afterInsert_no_insert (resp : InsertResponse) (st : State) :
  filter isInsert (snd (afterInsert resp st)) = [].
Proof. unfold afterInsert. now destruct (insert_error resp). Qed.

(** C4: a submission that passes every check inserts exactly one row; its
    status is "pending", its rate per day is the rate of the equipment,
    its subtotal, service fee and total are computed from that rate and
    the duration whatever total the state displays, and its notes are
    null when the notes text is empty. *)
Theorem accepted_submission_inserts_pending
    (clk : Clock) (resp : InsertResponse) (st : State)
    (u : User.t) (eq : Equipment.t) :
  user st = Some u -> equipment st = Some eq -> checksPass parse clk u eq st ->
  exists row : Booking.t,
    filter isInsert (snd (handleBookingSubmit parse clk resp st))
    = [Insert "bookings" row]
    /\ Booking.status row = "pending"
    /\ Booking.rate_per_day row = Equipment.rate eq
    /\ Booking.days row = duration st
    /\ Booking.subtotal row = (duration st * Equipment.rate eq)%js
    /\ Booking.service_fee row
       = Math_round (duration st * Equipment.rate eq * Num (5 # 100))%js
    /\ Booking.total_amount row
       = (Booking.subtotal row + Booking.service_fee row)%js
    /\ Booking.equipment_id row = Equipment.id eq
    /\ Booking.user_id row = User.id u
    /\ Booking.start_date row = BookingData.startDate (bookingData st)
    /\ Booking.end_date row = BookingData.endDate (bookingData st)
    /\ (BookingData.notes (bookingData st) = "" -> Booking.notes row = None)
    /\ (BookingData.notes (bookingData st) <> "" ->
        Booking.notes row = Some (BookingData.notes (bookingData st)))
    /\ (forall stale : number,
           filter isInsert
             (snd (handleBookingSubmit parse clk resp (setTotalAmount stale st)))
           = [Insert "bookings" row]).
Proof.
  intros Hu He Hpass. exists (bookingRow u eq st).
  assert (forall st0, validateBooking parse clk st0 = Accepted (bookingRow u eq st) ->
                      filter isInsert (snd (handleBookingSubmit parse clk resp st0))
                      = [Insert "bookings" (bookingRow u eq st)]) as Hone.
  { intros st0 Hv. unfold handleBookingSubmit. rewrite Hv.
    pose proof (afterInsert_no_insert resp (awaitingInsert st0)) as Hno.
    destruct (afterInsert resp (awaitingInsert st0)) as [st' effects].
    cbn in *. now rewrite Hno. }
  split; [apply Hone; now apply validateBooking_pass|].
  repeat split.
  - intros Hn. cbn. now rewrite Hn.
  - intros Hn. cbn. apply truthy_str_true in Hn. now rewrite Hn.
  - intros stale. apply Hone.
    now apply (validateBooking_pass clk u eq (setTotalAmount stale st)).
Qed.

(** *** The submitting flag *)


(** *** The minimum-duration check *)

Lemma calculateDuration_ordered (s e : string) (a b : Z) :
  parse s = Some a -> parse e = Some b -> a < b ->
  exists n : Z, calculateDuration parse s e = ofZ n /\ 1 <= n.
Proof.
  intros Hs He Hlt. exists (- ((- Z.abs (b - a)) / 86400000)). split.
  - now apply calculateDuration_valid.
  - pose proof (ceil_quot_bounds (Z.abs (b - a)) 86400000). lia.
Qed.

(** C9: two dates that parse, the first strictly before the second, have
    a duration of at least 1; so between the events of the page the
    minimum-duration alert of the submit handler is raised only when a date
    field is empty or does not parse, and never when both fields hold dates
    that parse. *)
Theorem minimum_duration_check_needs_missing_date
    (clk : Clock) (resp : InsertResponse) (st : State) :
  let start := BookingData.startDate (bookingData st) in
  let end_ := BookingData.endDate (bookingData st) in
  let out := handleBookingSubmit parse clk resp st in
  (forall (s e : string) (a b : Z),
      parse s = Some a -> parse e = Some b -> a < b ->
      exists n : Z, calculateDuration parse s e = ofZ n /\ 1 <= n)
  /\ (forall u0 : option User.t,
         reachable parse u0 st ->
         snd out = [PreventDefault; Alert "Minimum booking duration is 1 day"] ->
         (start = "" \/ parse start = None) \/ (end_ = "" \/ parse end_ = None))
  /\ (forall (u0 : option User.t) (a b : Z),
         reachable parse u0 st ->
         parse start = Some a -> parse end_ = Some b -> start <> "" -> end_ <> "" ->
         snd out <> [PreventDefault; Alert "Minimum booking duration is 1 day"]).
Proof.
  intros start end_ out.
  assert (forall (u0 : option User.t) (a b : Z),
             reachable parse u0 st ->
             parse start = Some a -> parse end_ = Some b ->
             start <> "" -> end_ <> "" ->
             snd out <> [PreventDefault; Alert "Minimum booking duration is 1 day"])
    as Hno.
  { intros u0 a b Hreach Ha Hb Hs He. apply reachable_consistent in Hreach.
    subst start end_ out.
    unfold handleBookingSubmit, validateBooking, new_Date.
    rewrite Ha, Hb, ge_ofZ.
    destruct (user st) as [u|]; [|discriminate].
    destruct (equipment st) as [eq|]; [|discriminate].
    destruct (User.id u =? Equipment.user_id eq)%string; [discriminate|].
    destruct (JS.lt (ofZ a) (setHours0 clk)); [discriminate|].
    destruct (b <=? a) eqn:Hba; [discriminate|].
    apply Z.leb_gt in Hba.
    destruct (calculateDuration_ordered _ _ a b Ha Hb Hba) as (n & Hn & Hpos).
    rewrite (duration_of_draft parse st Hreach). unfold durationOf.
    apply truthy_str_true in Hs, He. rewrite Hs, He. cbn [andb].
    rewrite Hn, lt_ofZ.
    destruct (n <? 1) eqn:Hn1; [apply Z.ltb_lt in Hn1; lia|].
    destruct (afterInsert resp _). discriminate. }
  split; [exact calculateDuration_ordered|split; [|exact Hno]].
  intros u0 Hreach Hfire.
  destruct (string_dec start "") as [Hs|Hs]; [now left; left|].
  destruct (string_dec end_ "") as [He|He]; [now right; left|].
  destruct (parse start) as [a|] eqn:Ha; [|now left; right].
  destruct (parse end_) as [b|] eqn:Hb; [|now right; right].
  exfalso. now apply (Hno u0 a b).
Qed.

(** *** Availability *)

Lemma handled_modal_opened (ev : event) (st st' : State) :
  handled parse ev st st' ->
  showBookingModal st = false -> showBookingModal st' = true -> ev = ClickBook.
Proof.
  intros Hh Hclosed Hopen.
  destruct Hh as [|resp Hr| | |field value Hr|value|clk resp|i];
    auto; exfalso.
  - congruence.
  - destruct (fetchEquipmentDetails_state resp st) as (_ & _ & Hm & _).
    cbn zeta in Hm. congruence.
  - discriminate.
  - destruct (handleDateChange_fields field value st)
      as (_ & _ & _ & _ & _ & _ & Hm & _).
    cbn zeta in Hm. congruence.
  - cbn in Hopen. congruence.
  - revert Hopen. unfold handleBookingSubmit, afterInsert, awaitingInsert.
    destruct (validateBooking parse clk st); [cbn; congruence|].
    destruct (insert_error resp); cbn; congruence.
  - cbn in Hopen. congruence.
Qed.

(** C10: for a viewer who is not the owner the button is "Book Now", and
    it is disabled exactly when the status is not "available"; an event
    opens the modal only as a click on that button for equipment that is
    available; the submit handler does the same whatever the status. *)
Theorem book_now_requires_available :
  (forall (st : State) (d : detail) (eq : Equipment.t),
      render st = DetailView d -> equipment st = Some eq -> isOwner st = false ->
      label (bookButton d) = "Book Now"
      /\ disabled (bookButton d) = negb (Equipment.status eq =? "available")%string
      /\ (Equipment.status eq <> "available" -> click (bookButton d) st = st))
  /\ (forall (ev : event) (st : State),
         showBookingModal st = false ->
         showBookingModal (fst (step parse ev st)) = true ->
         ev = ClickBook /\ isOwner st = false
         /\ exists eq, equipment st = Some eq /\ Equipment.status eq = "available")
  /\ (forall (clk : Clock) (resp : InsertResponse) (st : State)
             (eq : Equipment.t) (status' : string),
         equipment st = Some eq ->
         snd (handleBookingSubmit parse clk resp (setEquipment (withStatus status' eq) st))
         = snd (handleBookingSubmit parse clk resp st)).
Proof.
  split; [|split].
  - intros st d eq Hr He Hown.
    apply render_detail in Hr as (eq' & He' & _ & ->).
    rewrite He in He'. injection He' as <-.
    cbn [bookButton]. unfold renderBookButton, click. rewrite Hown. cbn.
    repeat split. intros Hs. apply String.eqb_neq in Hs. now rewrite Hs.
  - intros ev st Hclosed Hopen. unfold step in Hopen.
    destruct (dispatch parse ev st) as [st' effects] eqn:Hdis. cbn [fst] in Hopen.
    destruct (totalsEffect_fields st') as (_ & _ & _ & Hm & _).
    rewrite Hm in Hopen.
    assert (handled parse ev st st') as Hh
        by (replace st' with (fst (dispatch parse ev st)) by (now rewrite Hdis);
            apply dispatch_handled).
    pose proof (handled_modal_opened ev st st' Hh Hclosed Hopen) as ->.
    split; [reflexivity|].
    unfold dispatch in Hdis.
    destruct (render st) as [| |d] eqn:Hr;
      try (injection Hdis as <- _; congruence).
    apply render_detail in Hr as (eq & He & _ & ->).
    cbn [bookButton modal] in Hdis. unfold renderBookButton, click in Hdis.
    destruct (isOwner st); cbn in Hdis;
      [injection Hdis as <- _; congruence|].
    split; [reflexivity|]. exists eq. split; [assumption|].
    destruct (Equipment.status eq =? "available")%string eqn:Hs;
      cbn in Hdis; [now apply String.eqb_eq|].
    destruct (renderModal st eq); injection Hdis as <- _; congruence.
  - intros clk resp st eq status' He.
    unfold handleBookingSubmit, validateBooking, afterInsert. cbn.
    rewrite He. destruct (user st) as [u|]; [|reflexivity].
    repeat match goal with
           | |- context [if ?c then _ else _] => destruct c
           end; try reflexivity.
    all: destruct (insert_error resp); reflexivity.
Qed.

(** *** Zero duration *)

Lemma calculateDuration_same_day (value : string) (t : Z) :
  parse value = Some t -> calculateDuration parse value value = ofZ 0.
Proof.
  intros Hv. rewrite (calculateDuration_valid value value t t Hv Hv).
  now rewrite Z.sub_diag.
Qed.

Lemma durationOf_same_day (b : BookingData.t) :
  BookingData.startDate b = BookingData.endDate b ->
  dateInputValue parse (BookingData.startDate b) ->
  durationOf parse b = ofZ 0.
Proof.
  intros Heq Hin. unfold durationOf. rewrite <- Heq.
  destruct Hin as [-> | [t Ht]]; [reflexivity|].
  rewrite (calculateDuration_same_day _ t Ht). now destruct (truthy_str _).
Qed.

(** C6: when the duration is zero or not a number, or no equipment (and
    so no rate) is loaded, the totals effect sets the total to 0 and the
    screen shows no price breakdown; the total is 0 as well for a rate
    that is falsy; a date change that leaves the start date equal to the
    end date sets the duration to 0, and the submit button of the modal is
    then disabled and the breakdown absent. *)
Theorem zero_duration_resets_total :
  (forall st : State,
      JS.same (duration st) (ofZ 0) \/ duration st = NaN \/ equipment st = None ->
      totalAmount (totalsEffect st) = ofZ 0
      /\ breakdownShown (render (totalsEffect st)) = false)
  /\ (forall (st : State) (eq : Equipment.t),
         equipment st = Some eq -> truthy (Equipment.rate eq) = false ->
         totalAmount (totalsEffect st) = ofZ 0)
  /\ (forall (field : dateField) (value : string) (st : State),
         let st' := totalsEffect (handleDateChange parse field value st) in
         BookingData.startDate (bookingData st') = BookingData.endDate (bookingData st') ->
         dateInputValue parse (BookingData.startDate (bookingData st')) ->
         duration st' = ofZ 0
         /\ totalAmount st' = ofZ 0
         /\ (forall eq m, renderModal st' eq = Some m ->
                          disabled (submitButton m) = true /\ breakdown m = None)).
Proof.
  assert (forall st, JS.gt (duration st) (ofZ 0) = false ->
                     totalAmount (totalsEffect st) = ofZ 0
                     /\ breakdownShown (render (totalsEffect st)) = false) as Hzero.
  { intros st Hgt.
    destruct (totalsEffect_fields st) as (_ & He & _ & _ & _ & Hd & _).
    split.
    - unfold totalsEffect. rewrite Hgt. now destruct (equipment st).
    - unfold render. destruct (loading _); [reflexivity|].
      destruct (equipment (totalsEffect st)) as [eq|]; [|reflexivity].
      cbn [breakdownShown modal]. unfold renderModal.
      destruct (showBookingModal _); [|reflexivity].
      cbn [breakdown]. now rewrite Hd, Hgt. }
  split; [|split].
  - intros st [Hsame|[Hnan|Hnone]].
    + apply Hzero. destruct (duration st) as [q|]; [|reflexivity].
      cbn in Hsame. unfold JS.gt, JS.lt, Qlt_bool.
      apply negb_false_iff, Qle_bool_iff. rewrite Hsame. apply Qle_refl.
    + apply Hzero. now rewrite Hnan.
    + destruct (totalsEffect_fields st) as (_ & He & _).
      split.
      * unfold totalsEffect. now rewrite Hnone.
      * unfold render. rewrite He, Hnone. now destruct (loading _).
  - intros st eq He Hrate. unfold totalsEffect.
    now rewrite He, Hrate, andb_false_r.
  - intros field value st st' Heq Hin.
    destruct (totalsEffect_fields (handleDateChange parse field value st))
      as (_ & _ & _ & _ & Hb & Hd & _).
    fold st' in Hb, Hd.
    assert (duration st' = ofZ 0) as Hzd.
    { rewrite Hd, handleDateChange_duration, <- Hb.
      now apply durationOf_same_day. }
    split; [assumption|]. split.
    + subst st'. apply Hzero. now rewrite <- Hd, Hzd.
    + intros eq m. unfold renderModal.
      destruct (showBookingModal st'); [|discriminate].
      intros H. injection H as <-. cbn. rewrite Hzd. cbn.
      split; [apply orb_true_r|reflexivity].
Qed.

(** *** Image order *)

Lemma sort_insert_mainFirst (x : Image.t) (others mains : list Image.t) :
  Forall (fun i => Image.is_main i = false) others ->
  Forall (fun i => Image.is_main i = true) mains ->
  sort_insert mainFirst x (others ++ mains)
  = if Image.is_main x then others ++ x :: mains else x :: others ++ mains.
Proof.
  intros Ho Hm. destruct Ho as [|o others Hother Ho]; cbn [app].
  - destruct Hm as [|m mains Hmain _]; cbn [sort_insert].
    + now destruct (Image.is_main x).
    + unfold mainFirst. rewrite Hmain. now destruct (Image.is_main x).
  - destruct (Image.is_main x) eqn:Hx.
    + cbn [sort_insert]. unfold mainFirst at 1. rewrite Hother, Hx.
      cbn. f_equal.
      induction Ho as [|o' others Hother' _ IH]; cbn [app sort_insert].
      * destruct Hm as [|m mains Hmain _]; [reflexivity|].
        cbn [sort_insert]. unfold mainFirst. now rewrite Hmain.
      * unfold mainFirst at 1. rewrite Hother', Hx. cbn. now rewrite IH.
    + cbn [sort_insert]. unfold mainFirst. now rewrite Hother, Hx.
Qed.

Lemma Forall_filter_main (l : list Image.t) :
  Forall (fun i => Image.is_main i = true) (filter Image.is_main l).
Proof. apply Forall_forall. intros i Hi. now apply filter_In in Hi. Qed.

Lemma Forall_filter_nonMain (l : list Image.t) :
  Forall (fun i => Image.is_main i = false) (filter nonMain l).
Proof.
  apply Forall_forall. intros i Hi. apply filter_In in Hi as [_ Hi].
  now apply negb_true_iff in Hi.
Qed.

Lemma sort_fold_mainFirst (l others mains : list Image.t) :
  Forall (fun i => Image.is_main i = false) others ->
  Forall (fun i => Image.is_main i = true) mains ->
  fold_left (fun sorted pivot => sort_insert mainFirst pivot sorted) l
            (rev others ++ rev mains)
  = rev (others ++ filter nonMain l) ++ rev (mains ++ filter Image.is_main l).
Proof.
  revert others mains.
  induction l as [|x l IH]; intros others mains Ho Hm; cbn [fold_left filter].
  - now rewrite !app_nil_r.
  - rewrite sort_insert_mainFirst by now apply Forall_rev.
    change (nonMain x) with (negb (Image.is_main x)).
    destruct (Image.is_main x) eqn:Hx; cbn [negb].
    + replace (rev others ++ x :: rev mains)
        with (rev others ++ rev (mains ++ [x]))
        by now rewrite rev_app_distr.
      rewrite IH.
      * now rewrite <- (app_assoc mains).
      * assumption.
      * apply Forall_app. split; [assumption|]. now constructor.
    + replace (x :: rev others ++ rev mains)
        with (rev (others ++ [x]) ++ rev mains)
        by now rewrite rev_app_distr.
      rewrite IH.
      * now rewrite <- (app_assoc others).
      * apply Forall_app. split; [assumption|]. now constructor.
      * assumption.
Qed.

(** The sort puts the flagged images first and keeps the order of the
    array among the flagged images and among the others. *)
Lemma Array_sort_mainFirst (l : list Image.t) :
  Array_sort mainFirst l = filter Image.is_main l ++ filter nonMain l.
Proof.
  unfold Array_sort.
  pose proof (sort_fold_mainFirst l [] [] (Forall_nil _) (Forall_nil _)) as H.
  cbn [rev app] in H. rewrite H.
  now rewrite rev_app_distr, !rev_involutive.
Qed.

Lemma filter_without_main (l : list Image.t) :
  Forall (fun i => Image.is_main i = false) l ->
  filter Image.is_main l = [] /\ filter nonMain l = l.
Proof.
  induction 1 as [|x l Hx _ [IH1 IH2]]; [now split|].
  cbn [filter]. unfold nonMain at 1. cbn beta in Hx. rewrite Hx. cbn [negb].
  now rewrite IH1, IH2.
Qed.

Lemma filter_nonMain_mains (l : list Image.t) :
  Forall (fun i => Image.is_main i = true) l -> filter nonMain l = [].
Proof.
  induction 1 as [|x l Hx _ IH]; [reflexivity|].
  cbn. unfold nonMain at 1. now rewrite Hx.
Qed.

(** Keeping some of the images commutes with rearranging them. *)
Lemma kept_images_permuted (keep : Image.t -> bool) (before after : list Image.t)
    (Hperm : Permutation before after) :
  Permutation (filter keep before) (filter keep after).
Proof.
  induction Hperm as [|x l l' _ IH|x y l|l l' l'' _ IH1 _ IH2]; cbn [filter].
  - constructor.
  - destruct (keep x); [now constructor|assumption].
  - destruct (keep x), (keep y); try apply Permutation_refl. apply perm_swap.
  - now transitivity (filter keep l').
Qed.

Lemma Array_sort_mainFirst_perm (l : list Image.t) :
  Permutation l (Array_sort mainFirst l).
Proof.
  rewrite Array_sort_mainFirst.
  induction l as [|x l IH]; [constructor|].
  cbn [filter]. unfold nonMain at 1.
  destruct (Image.is_main x); cbn [negb app].
  - now constructor.
  - now apply Permutation_cons_app.
Qed.

Lemma filter_nonMain_idem (l : list Image.t) :
  filter nonMain (filter nonMain l) = filter nonMain l.
Proof.
  induction l as [|x l IH]; [reflexivity|].
  cbn [filter]. destruct (nonMain x) eqn:Hx; cbn [filter]; rewrite ?Hx, IH; reflexivity.
Qed.

Lemma tied_mainFirst_nonMain (x y : Image.t) :
  Image.is_main x = false -> tied mainFirst x y = nonMain y.
Proof.
  intros Hx. unfold tied, mainFirst, nonMain. rewrite Hx.
  now destruct (Image.is_main y).
Qed.

Lemma tied_mainFirst_main (x y : Image.t) :
  Image.is_main x = true -> tied mainFirst x y = false.
Proof.
  intros Hx. unfold tied, mainFirst. rewrite Hx.
  now destruct (Image.is_main y).
Qed.

(** With at most one flagged image every stable sort by the comparator
    gives the flagged image followed by the others in their order. *)
Lemma stable_sort_mainFirst_unique (l l' : list Image.t) :
  (length (filter Image.is_main l) <= 1)%nat ->
  stableSortOf mainFirst l l' ->
  l' = filter Image.is_main l ++ filter nonMain l.
Proof.
  intros Hone (Hperm & Hsorted & Hstable).
  assert (l' = filter Image.is_main l' ++ filter nonMain l') as Hsplit.
  { destruct Hsorted as [|x rest Hx _]; [reflexivity|].
    assert (Forall (fun i => Image.is_main i = false) rest) as Hrest.
    { eapply Forall_impl; [|exact Hx]. cbn beta. intros y. unfold mainFirst.
      destruct (Image.is_main y); [lia|reflexivity]. }
    assert (filter Image.is_main rest = [] /\ filter nonMain rest = rest) as [Hm Hn].
    { clear -Hrest. induction Hrest as [|y rest Hy _ [IH1 IH2]]; [now split|].
      cbn [filter]. unfold nonMain at 1. cbn beta in Hy. rewrite Hy. cbn [negb].
      now rewrite IH1, IH2. }
    cbn [filter]. unfold nonMain at 1.
    destruct (Image.is_main x); cbn [negb app]; now rewrite Hm, Hn. }
  assert (filter Image.is_main l' = filter Image.is_main l) as Hmains.
  { pose proof (kept_images_permuted Image.is_main l l' Hperm) as Hp.
    destruct (filter Image.is_main l) as [|m [|m' ms]].
    - now apply Permutation_nil.
    - now apply Permutation_length_1_inv.
    - cbn in Hone. lia. }
  assert (filter nonMain l' = filter nonMain l) as Hothers.
  { pose proof (kept_images_permuted nonMain l l' Hperm) as Hp.
    destruct (filter nonMain l) as [|x others] eqn:Hl.
    - now apply Permutation_nil.
    - assert (In x (filter nonMain l)) as Hin by (rewrite Hl; now left).
      apply filter_In in Hin as [_ Hx]. apply negb_true_iff in Hx.
      rewrite <- Hl.
      rewrite <- (filter_ext _ _ (fun y => tied_mainFirst_nonMain x y Hx) l').
      rewrite <- (filter_ext _ _ (fun y => tied_mainFirst_nonMain x y Hx) l).
      apply Hstable. }
  now rewrite Hsplit, Hmains, Hothers.
Qed.

(** With at most one flagged image the sort of the model is a stable
    sort by the comparator. *)
Lemma Array_sort_mainFirst_stable (l : list Image.t) :
  (length (filter Image.is_main l) <= 1)%nat ->
  stableSortOf mainFirst l (Array_sort mainFirst l).
Proof.
  intros Hone. split; [apply Array_sort_mainFirst_perm|].
  rewrite Array_sort_mainFirst. split.
  - pose proof (Forall_filter_nonMain l) as Hothers.
    assert (ForallOrdPairs (fun x y => mainFirst x y <= 0) (filter nonMain l)) as Hord.
    { induction Hothers as [|y others Hy Hall IH]; constructor; [|assumption].
      eapply Forall_impl; [|exact Hall]. cbn beta. intros z Hz.
      unfold mainFirst. rewrite Hz. destruct (Image.is_main y); lia. }
    destruct (filter Image.is_main l) as [|m [|m' ms]]; [exact Hord| |cbn in Hone; lia].
    cbn [app]. constructor; [|exact Hord].
    eapply Forall_impl; [|exact Hothers]. cbn beta. intros z Hz.
    unfold mainFirst. rewrite Hz. destruct (Image.is_main m); lia.
  - intros x. rewrite filter_app. destruct (Image.is_main x) eqn:Hx.
    + rewrite !(filter_ext _ _ (fun y => tied_mainFirst_main x y Hx)).
      assert (forall k : list Image.t, filter (fun _ => false) k = []) as Hnil
          by (induction k; auto).
      now rewrite !Hnil.
    + rewrite !(filter_ext _ _ (fun y => tied_mainFirst_nonMain x y Hx)).
      rewrite filter_nonMain_mains by apply Forall_filter_main.
      apply filter_nonMain_idem.
Qed.

(** C5: the loader stores the images sorted by the main flag.  For a
    fetched list with at most one flagged image, which is what the data
    model asks of the images of an equipment, the sorted list is a
    rearrangement of the fetched one that starts with the flagged image
    when there is one, and goes on with the others in the order they were
    fetched in; it is a stable sort by the comparator, and every stable
    sort by the comparator gives this list, whatever the engine.  The
    gallery shows the stored order, and a placeholder when there is no
    image. *)
Theorem main_image_sorted_first :
  (forall imgs : list Image.t,
      (length (filter Image.is_main imgs) <= 1)%nat ->
      let sorted := Array_sort mainFirst imgs in
      Permutation imgs sorted
      /\ filter nonMain sorted = filter nonMain imgs
      /\ (existsb Image.is_main imgs = true ->
          exists m, Image.is_main m = true /\ sorted = m :: filter nonMain imgs)
      /\ (existsb Image.is_main imgs = false -> sorted = imgs)
      /\ stableSortOf mainFirst imgs sorted
      /\ forall l', stableSortOf mainFirst imgs l' -> l' = sorted)
  /\ (forall (resp : FetchResponse) (d : EquipmentRow.t) (st : State),
         error resp = None -> data resp = Some d ->
         exists eq,
           equipment (fst (fetchEquipmentDetails resp st)) = Some eq
           /\ Equipment.images eq
              = match EquipmentRow.equipment_images d with
                | Some imgs => Array_sort mainFirst imgs
                | None => []
                end
           /\ imagesToShow (fst (fetchEquipmentDetails resp st))
              = map Image.image_url (Equipment.images eq))
  /\ (forall st : State,
         (imagesToShow st = [] -> renderGallery st = NoImages "No images available")
         /\ (forall url urls,
                imagesToShow st = url :: urls ->
                renderGallery st
                = Gallery (nth_error (url :: urls) (currentImageIndex st))
                          (match urls with [] => [] | _ :: _ => url :: urls end))).
Proof.
  split; [|split].
  - intros imgs Hlen sorted. subst sorted.
    split; [apply Array_sort_mainFirst_perm|].
    split; [|split; [|split; [|split]]].
    + rewrite Array_sort_mainFirst, filter_app, filter_nonMain_mains
        by apply Forall_filter_main.
      apply filter_nonMain_idem.
    + intros Hex. apply existsb_exists in Hex as (m & Hin & Hm).
      rewrite Array_sort_mainFirst.
      assert (In m (filter Image.is_main imgs)) as Hin' by now apply filter_In.
      pose proof (Forall_filter_main imgs) as Hall.
      destruct (filter Image.is_main imgs) as [|m' [|m'' rest]];
        [destruct Hin'| |cbn in Hlen; lia].
      exists m'. split; [now inversion Hall|reflexivity].
    + intros Hex. rewrite Array_sort_mainFirst.
      destruct (filter_without_main imgs) as [-> ->]; [|reflexivity].
      apply Forall_forall. intros i Hi.
      destruct (Image.is_main i) eqn:Hm; [|reflexivity].
      rewrite <- Hex. symmetry. apply existsb_exists. now exists i.
    + now apply Array_sort_mainFirst_stable.
    + intros l' Hl'. rewrite Array_sort_mainFirst.
      now apply stable_sort_mainFirst_unique.
  - intros resp d st Herr Hdata. unfold fetchEquipmentDetails.
    rewrite Herr, Hdata. cbn [fst]. eexists. split; [reflexivity|].
    split; reflexivity.
  - intros st. unfold renderGallery. split.
    + intros ->. reflexivity.
    + intros url urls ->. cbn [length]. now destruct urls.
Qed.

(** *** Failed fetch *)


End Properties.

(** ** Further properties *)

Lemma Qfloor_quot (m : Z) (D : positive) :
  Qfloor (inject_Z m / inject_Z (Zpos D)) = m / Zpos D.
Proof.
  unfold Qfloor, Qdiv, Qmult, Qinv, inject_Z; simpl.
  now rewrite Z.mul_1_r.
Qed.

Lemma atMost_same (a a' b b' : number) :
  JS.same a a' -> JS.same b b' -> atMost a' b' -> atMost a b.
Proof.
  destruct a, a', b, b'; cbn; try tauto.
  intros Ha Hb Hle. now rewrite Ha, Hb.
Qed.

Section MoreProperties.

Variable parse : string -> option Z.
Variable toISODate : Z -> string.

(** *** Durations *)

(** X1: the duration does not depend on the order of the two dates. *)
Theorem calculateDuration_symmetric (s e : string) :
  calculateDuration parse s e = calculateDuration parse e s.
Proof.
  destruct (parse s) as [a|] eqn:Hs.
  - destruct (parse e) as [b|] eqn:He.
    + rewrite (calculateDuration_valid parse s e a b Hs He).
      rewrite (calculateDuration_valid parse e s b a He Hs).
      replace (b - a) with (- (a - b)) by lia. now rewrite Z.abs_opp.
    + now rewrite calculateDuration_invalid_end, calculateDuration_invalid_start.
  - now rewrite calculateDuration_invalid_start, calculateDuration_invalid_end.
Qed.

(** X2: between two dates that are midnights UTC the duration is the
    number of days from one to the other, the first day not counted. *)
Theorem calculateDuration_whole_days (s e : string) (a b : Z) :
  parse s = Some a -> parse e = Some b ->
  a mod 86400000 = 0 -> b mod 86400000 = 0 ->
  calculateDuration parse s e = ofZ (Z.abs (b / 86400000 - a / 86400000)).
Proof.
  intros Hs He Ha Hb. rewrite (calculateDuration_valid parse s e a b Hs He).
  f_equal.
  pose proof (Z.div_mod a 86400000 ltac:(lia)) as Hda.
  pose proof (Z.div_mod b 86400000 ltac:(lia)) as Hdb.
  set (k := Z.abs (b / 86400000 - a / 86400000)).
  assert (- Z.abs (b - a) = (- k) * 86400000) as -> by (subst k; lia).
  rewrite Z.div_mul by lia. lia.
Qed.

(** X3: the two date fields can be filled in either order, and the notes
    before or after a date, with the same resulting state. *)
Theorem date_changes_commute (a b notes : string) (field : dateField) (st : State) :
  handleDateChange parse startDate a (handleDateChange parse endDate b st)
  = handleDateChange parse endDate b (handleDateChange parse startDate a st)
  /\ handleDateChange parse field a (handleNotesChange notes st)
     = handleNotesChange notes (handleDateChange parse field a st).
Proof.
  destruct st as [u eq l m [s0 e0 n0] d t sub i]. split.
  - unfold handleDateChange. destruct a, b, s0, e0; reflexivity.
  - unfold handleDateChange, handleNotesChange.
    destruct field, a, s0, e0; reflexivity.
Qed.

Lemma consistent_duration_whole (st : State) :
  consistent parse st -> exists n : Z, 0 <= n /\ duration st = ofZ n.
Proof.
  intros [Hd Hs He _ _]. rewrite Hd. unfold durationOf.
  destruct (truthy_str (BookingData.startDate (bookingData st))) eqn:Hts;
    [|exists 0; split; [lia|reflexivity]].
  destruct (truthy_str (BookingData.endDate (bookingData st))) eqn:Hte;
    [|exists 0; split; [lia|reflexivity]].
  cbn [andb].
  destruct Hs as [Hs|[a Ha]]; [rewrite Hs in Hts; discriminate|].
  destruct He as [He|[b Hb]]; [rewrite He in Hte; discriminate|].
  rewrite (calculateDuration_valid parse _ _ a b Ha Hb).
  eexists. split; [|reflexivity].
  pose proof (ceil_quot_bounds (Z.abs (b - a)) 86400000). lia.
Qed.

(** X4: between the events of the page the duration is a whole number
    that is not negative, never NaN. *)
Theorem reachable_duration_whole (u : option User.t) (st : State) :
  reachable parse u st -> exists n : Z, 0 <= n /\ duration st = ofZ n.
Proof.
  intros Hreach. apply consistent_duration_whole.
  now apply reachable_consistent with (u := u).
Qed.

(** *** Amounts *)

Lemma fee_whole_amount (d r : Z) :
  Qfloor (inject_Z d * inject_Z r * (5 # 100) + (1 # 2)) = (d * r + 10) / 20.
Proof.
  rewrite <- (Qfloor_quot (d * r + 10) 20). apply Qfloor_comp.
  rewrite inject_Z_plus, inject_Z_mult.
  unfold Qdiv. change (/ inject_Z 20)%Q with (1 # 20)%Q.
  change (inject_Z 10) with (10 # 1)%Q. ring.
Qed.


(** The total that the totals effect sets, for a duration and a rate
    that are numbers. *)
Lemma totalsEffect_value (st : State) (eq : Equipment.t) (d : Z) (r : Q) :
  equipment st = Some eq -> duration st = ofZ d -> Equipment.rate eq = Num r ->
  exists t : Q,
    totalAmount (totalsEffect st) = Num t
    /\ ((d <= 0 /\ t == 0)
        \/ (1 <= d
            /\ t == inject_Z d * r
                    + inject_Z (Qfloor (inject_Z d * r * (5 # 100) + (1 # 2))))).
Proof.
  intros He Hd Hr. destruct (Z_lt_le_dec d 1) as [Hsmall|Hpos].
  - exists 0%Q. split; [|left; split; [lia|reflexivity]].
    unfold totalsEffect. rewrite He, Hd. unfold JS.gt. rewrite lt_ofZ.
    destruct (0 <? d) eqn:H0; [apply Z.ltb_lt in H0; lia|reflexivity].
  - pose proof (totalsEffect_total st eq d r He Hd Hr Hpos) as Hsame.
    destruct (totalAmount (totalsEffect st)) as [t|]; [|destruct Hsame].
    exists t. split; [reflexivity|]. right. split; assumption.
Qed.

(** X6: at a rate that is not negative a longer duration never has a
    smaller total, and no total is negative. *)
Theorem total_monotone_in_duration
    (st1 st2 : State) (eq : Equipment.t) (r : Q) (d1 d2 : Z) :
  equipment st1 = Some eq -> equipment st2 = Some eq ->
  Equipment.rate eq = Num r -> (0 <= r)%Q ->
  duration st1 = ofZ d1 -> duration st2 = ofZ d2 -> d1 <= d2 ->
  atMost (ofZ 0) (totalAmount (totalsEffect st1))
  /\ atMost (totalAmount (totalsEffect st1)) (totalAmount (totalsEffect st2)).
Proof.
  intros He1 He2 Hr Hr0 Hd1 Hd2 Hle.
  assert (forall d : Z,
             1 <= d ->
             (0 <= inject_Z d * r
                   + inject_Z (Qfloor (inject_Z d * r * (5 # 100) + (1 # 2))))%Q)
    as Hnonneg.
  { intros d Hd.
    assert (0 <= inject_Z d * r)%Q as Hsub.
    { apply Qmult_le_0_compat; [|assumption].
      change 0%Q with (inject_Z 0). rewrite <- Zle_Qle. lia. }
    assert (0 <= Qfloor (inject_Z d * r * (5 # 100) + (1 # 2))) as Hfee.
    { change 0 with (Qfloor 0). apply Qfloor_resp_le. lra. }
    rewrite (Zle_Qle 0 _) in Hfee. change (inject_Z 0) with 0%Q in Hfee. lra. }
  destruct (totalsEffect_value st1 eq d1 r He1 Hd1 Hr) as (t1 & -> & Ht1).
  destruct (totalsEffect_value st2 eq d2 r He2 Hd2 Hr) as (t2 & -> & Ht2).
  cbn [atMost ofZ]. change (inject_Z 0) with 0%Q.
  destruct Ht1 as [[Hs1 Ht1]|[Hp1 Ht1]], Ht2 as [[Hs2 Ht2]|[Hp2 Ht2]];
    rewrite Ht1, Ht2.
  - split; apply Qle_refl.
  - split; [apply Qle_refl|now apply Hnonneg].
  - lia.
  - split; [now apply Hnonneg|].
    assert (inject_Z d1 * r <= inject_Z d2 * r)%Q as Hsub.
    { apply Qmult_le_compat_r; [|assumption]. rewrite <- Zle_Qle. lia. }
    assert (Qfloor (inject_Z d1 * r * (5 # 100) + (1 # 2))
            <= Qfloor (inject_Z d2 * r * (5 # 100) + (1 # 2))) as Hfee
        by (apply Qfloor_resp_le; lra).
    rewrite Zle_Qle in Hfee. lra.
Qed.

(** X7: between the events of the page the lines of the price breakdown
    add up: the total shown is the subtotal shown plus the fee shown. *)
Theorem breakdown_adds_up
    (u : option User.t) (st : State) (eq : Equipment.t) (r : Q)
    (m : bookingModal) (b : priceBreakdown) :
  reachable parse u st -> equipment st = Some eq -> Equipment.rate eq = Num r ->
  renderModal st eq = Some m -> breakdown m = Some b ->
  JS.same (totalLine b) (subtotalLine b + serviceFeeLine b)%js.
Proof.
  intros Hreach He Hr Hm Hb.
  apply reachable_consistent in Hreach.
  destruct (consistent_duration_whole st Hreach) as (n & Hn0 & Hn).
  destruct Hreach as [_ _ _ _ Htot].
  unfold renderModal in Hm. rewrite Hn in Hm. unfold JS.gt in Hm.
  rewrite lt_ofZ in Hm.
  destruct (showBookingModal st); [|discriminate Hm].
  injection Hm as <-. cbn [breakdown] in Hb.
  destruct (0 <? n) eqn:Hgt; [|discriminate Hb].
  injection Hb as <-. cbn [totalLine subtotalLine serviceFeeLine].
  apply Z.ltb_lt in Hgt. rewrite <- Htot, Hr.
  apply (totalsEffect_total st eq n r He Hn Hr). lia.
Qed.

(** X8: between the events of the page the total of the row that an
    accepted submission inserts is the total that the modal displays. *)
Theorem inserted_total_is_displayed
    (u : option User.t) (clk : Clock) (st : State) (eq : Equipment.t) (r : Q)
    (row : Booking.t) :
  reachable parse u st -> equipment st = Some eq -> Equipment.rate eq = Num r ->
  validateBooking parse clk st = Accepted row ->
  JS.same (totalAmount st) (Booking.total_amount row).
Proof.
  intros Hreach He Hr Hrow.
  apply reachable_consistent in Hreach.
  destruct (consistent_duration_whole st Hreach) as (n & Hn0 & Hn).
  destruct Hreach as [_ _ _ _ Htot].
  apply validateBooking_Accepted in Hrow
    as (u' & eq' & _ & He' & (_ & _ & _ & Hmin) & ->).
  rewrite He in He'. injection He' as <-.
  rewrite Hn, lt_ofZ in Hmin. apply Z.ltb_ge in Hmin.
  cbn [bookingRow Booking.total_amount].
  rewrite Hn, Hr, <- Htot.
  apply (totalsEffect_total st eq n r He Hn Hr Hmin).
Qed.

(** *** The modal *)

Lemma totalsEffect_setShowBookingModal (b : bool) (st : State) :
  totalsEffect (setShowBookingModal b st) = setShowBookingModal b (totalsEffect st).
Proof.
  unfold totalsEffect. cbn [equipment setShowBookingModal duration].
  destruct (equipment st) as [eq|]; [|reflexivity].
  now destruct (JS.gt (duration st) (ofZ 0) && truthy (Equipment.rate eq)).
Qed.

Lemma dispatch_on_modal (ev : event) (st : State) (eq : Equipment.t) :
  loading st = false -> equipment st = Some eq -> showBookingModal st = true ->
  dispatch parse ev st
  = match ev with
    | Fetched resp => fetchEquipmentDetails resp st
    | ClickBook => (click (renderBookButton st eq) st, [])
    | ClickCancel => (if submitting st then st else setShowBookingModal false st, [])
    | ClickClose => (setShowBookingModal false st, [])
    | ChangeDate field value => (handleDateChange parse field value st, [])
    | ChangeNotes value => (handleNotesChange value st, [])
    | SubmitForm clk resp =>
        if submitting st || JS.lt (duration st) (ofZ 1) then (st, [])
        else handleBookingSubmit parse clk resp st
    | ClickThumbnail i => (setCurrentImageIndex i st, [])
    end.
Proof.
  intros Hl He Hm. unfold dispatch, render, renderModal.
  rewrite Hl, He, Hm. destruct ev; reflexivity.
Qed.

Lemma dispatch_ClickBook (st : State) (eq : Equipment.t) :
  loading st = false -> equipment st = Some eq ->
  dispatch parse ClickBook st = (click (renderBookButton st eq) st, []).
Proof.
  intros Hl He. unfold dispatch, render. now rewrite Hl, He.
Qed.

Lemma click_bookButton (st : State) (eq : Equipment.t) :
  isOwner st = false -> Equipment.status eq = "available" ->
  click (renderBookButton st eq) st = setShowBookingModal true st.
Proof.
  intros Hown Hst. unfold renderBookButton, click. now rewrite Hown, Hst.
Qed.

(** X9: closing the modal, by Cancel or by the X, keeps the draft, the
    duration and the total, and opening it again with Book Now gives back
    the state as it was. *)
Theorem close_and_reopen_keeps_draft
    (u : option User.t) (st : State) (eq : Equipment.t) (ev : event) :
  reachable parse u st ->
  loading st = false -> equipment st = Some eq -> showBookingModal st = true ->
  isOwner st = false -> Equipment.status eq = "available" ->
  ev = ClickCancel \/ ev = ClickClose ->
  let closed := fst (step parse ev st) in
  showBookingModal closed = false
  /\ bookingData closed = bookingData st
  /\ duration closed = duration st
  /\ totalAmount closed = totalAmount st
  /\ fst (step parse ClickBook closed) = st.
Proof.
  intros Hreach Hl He Hm Hown Hst Hev closed.
  apply reachable_consistent in Hreach. destruct Hreach as [_ _ _ Hsub Htot].
  assert (closed = setShowBookingModal false st) as ->.
  { subst closed. unfold step.
    rewrite (dispatch_on_modal ev st eq Hl He Hm).
    destruct Hev as [-> | ->]; rewrite ?Hsub;
      now rewrite totalsEffect_setShowBookingModal, Htot. }
  repeat split.
  unfold step. rewrite (dispatch_ClickBook (setShowBookingModal false st) eq Hl He).
  rewrite click_bookButton by assumption. cbn [fst].
  rewrite totalsEffect_setShowBookingModal, totalsEffect_setShowBookingModal, Htot.
  destruct st. cbn in Hm |- *. now rewrite Hm.
Qed.

(** X10: while the insert is in flight, Cancel and a second submission of
    the form do nothing, whereas the X still closes the modal and the date
    fields still change the draft. *)
Theorem controls_while_submitting
    (st : State) (eq : Equipment.t) (clk : Clock) (resp : InsertResponse)
    (field : dateField) (value : string) :
  loading st = false -> equipment st = Some eq -> showBookingModal st = true ->
  let flying := awaitingInsert st in
  dispatch parse ClickCancel flying = (flying, [])
  /\ dispatch parse (SubmitForm clk resp) flying = (flying, [])
  /\ dispatch parse ClickClose flying = (setShowBookingModal false flying, [])
  /\ dispatch parse (ChangeDate field value) flying
     = (handleDateChange parse field value flying, []).
Proof.
  intros Hl He Hm flying.
  repeat split; subst flying;
    now rewrite (dispatch_on_modal _ (awaitingInsert st) eq Hl He Hm).
Qed.

(** X11: once a row is accepted, a store that takes it makes the handler
    close the modal, announce the request and go to the dashboard; a store
    that refuses it makes the handler log the error and announce the
    failure, the modal staying as it was and nothing navigating; in both
    cases the draft and the duration are kept. *)
Theorem submission_outcome
    (clk : Clock) (resp : InsertResponse) (st : State) (row : Booking.t) :
  validateBooking parse clk st = Accepted row ->
  let out := handleBookingSubmit parse clk resp st in
  bookingData (fst out) = bookingData st
  /\ duration (fst out) = duration st
  /\ (insert_error resp = None ->
      showBookingModal (fst out) = false
      /\ snd out
         = [PreventDefault; Insert "bookings" row;
            Alert "Booking request sent successfully! The owner will review and respond.";
            Navigate "/dashboard"])
  /\ (forall err,
         insert_error resp = Some err ->
         showBookingModal (fst out) = showBookingModal st
         /\ snd out
            = [PreventDefault; Insert "bookings" row;
               ConsoleError "Error creating booking:" err;
               Alert "Failed to submit booking request. Please try again."]).
Proof.
  intros Hv out. subst out. unfold handleBookingSubmit, afterInsert. rewrite Hv.
  destruct (insert_error resp) as [err|]; cbn [fst snd].
  - split; [reflexivity|]. split; [reflexivity|]. split; [discriminate|].
    intros err' Herr. injection Herr as <-. now split.
  - split; [reflexivity|]. split; [reflexivity|]. split; [now split|].
    discriminate.
Qed.

(** X12: a visitor without a session is sent to the sign-in page by the
    check at mount, can still open the booking form of available
    equipment, and gets nothing from submitting it: no alert, no insert,
    no change of the state. *)
Theorem visitor_without_session
    (st : State) (eq : Equipment.t) (clk : Clock) (resp : InsertResponse) :
  user st = None ->
  checkAuth None = [Navigate "/auth"]
  /\ (forall u, checkAuth (Some u) = [])
  /\ handleBookingSubmit parse clk resp st = (st, [PreventDefault])
  /\ (loading st = false -> equipment st = Some eq ->
      Equipment.status eq = "available" ->
      showBookingModal (fst (step parse ClickBook st)) = true).
Proof.
  intros Hu. split; [reflexivity|split; [reflexivity|split]].
  - unfold handleBookingSubmit, validateBooking. now rewrite Hu.
  - intros Hl He Hst. unfold step. rewrite (dispatch_ClickBook st eq Hl He).
    rewrite click_bookButton; [|unfold isOwner; now rewrite Hu|assumption].
    cbn [fst]. now rewrite totalsEffect_setShowBookingModal.
Qed.

(** *** What the events can do *)

(** X13: a submission through the form never raises the minimum-duration
    alert: while that check would fail the submit button is disabled. *)
Theorem form_never_raises_minimum_alert
    (clk : Clock) (resp : InsertResponse) (st : State) :
  ~ In (Alert "Minimum booking duration is 1 day")
       (snd (step parse (SubmitForm clk resp) st)).
Proof.
  unfold step.
  destruct (dispatch parse (SubmitForm clk resp) st) as [st' effects] eqn:Hdis.
  cbn [snd]. unfold dispatch in Hdis.
  destruct (render st) as [| |d] eqn:Hr;
    try (injection Hdis as _ <-; intros []).
  apply render_detail in Hr as (eq & He & _ & ->). cbn [modal] in Hdis.
  unfold renderModal in Hdis.
  destruct (showBookingModal st); [|injection Hdis as _ <-; intros []].
  cbn [submitButton disabled] in Hdis.
  destruct (submitting st || JS.lt (duration st) (ofZ 1)) eqn:Hoff;
    [injection Hdis as _ <-; intros []|].
  apply orb_false_iff in Hoff as [_ Hmin].
  unfold handleBookingSubmit, validateBooking, afterInsert in Hdis.
  rewrite He, Hmin in Hdis.
  destruct (user st) as [u|]; [|injection Hdis as _ <-; cbn; intuition discriminate].
  repeat match type of Hdis with
         | context [if ?c then _ else _] => destruct c
         end;
    try (injection Hdis as _ <-; cbn; intuition discriminate).
  all: destruct (insert_error resp); injection Hdis as _ <-; cbn;
    intuition discriminate.
Qed.

(** X14: an event other than a form submission contacts neither the store
    nor the router: it inserts nothing and navigates nowhere. *)
Theorem only_submission_inserts (ev : event) (st : State) :
  (forall clk resp, ev <> SubmitForm clk resp) ->
  forall e, In e (snd (step parse ev st)) ->
            exists label err, e = ConsoleError label err.
Proof.
  intros Hev e. unfold step.
  destruct (dispatch parse ev st) as [st' effects] eqn:Hdis. cbn [snd].
  unfold dispatch in Hdis.
  destruct ev as [resp| | | |field value|value|clk resp|i];
    try (exfalso; eapply Hev; reflexivity).
  - unfold fetchEquipmentDetails in Hdis.
    destruct (error resp) as [err|].
    + injection Hdis as _ <-. intros [<-|[]]. now eexists _, _.
    + destruct (data resp); injection Hdis as _ <-; intros [].
  - destruct (render st); injection Hdis as _ <-; intros [].
  - destruct (render st) as [| |d]; [| |destruct (modal d)];
      injection Hdis as _ <-; intros [].
  - destruct (render st) as [| |d]; [| |destruct (modal d)];
      injection Hdis as _ <-; intros [].
  - destruct (render st) as [| |d]; [| |destruct (modal d)];
      injection Hdis as _ <-; intros [].
  - destruct (render st) as [| |d]; [| |destruct (modal d)];
      injection Hdis as _ <-; intros [].
  - destruct (render st); injection Hdis as _ <-; intros [].
Qed.

(** X15: as long as no fetch has settled, the page shows the loading
    screen and ignores every event: the state stays the one of the mount.
    So it is for good when the route carries no id, as no fetch starts. *)
Theorem loading_until_fetched
    (u : option User.t) (evs : list event) (resp : FetchResponse) :
  forallb (fun ev => negb (isFetched ev)) evs = true ->
  run parse evs (totalsEffect (initialState u)) = totalsEffect (initialState u)
  /\ render (run parse evs (totalsEffect (initialState u))) = LoadingView
  /\ fetchOnId None resp (initialState u) = (initialState u, [])
  /\ fetchOnId (Some "") resp (initialState u) = (initialState u, []).
Proof.
  intros Hevs.
  assert (run parse evs (totalsEffect (initialState u))
          = totalsEffect (initialState u)) as Hrun.
  { induction evs as [|ev evs IH]; [reflexivity|].
    cbn [forallb] in Hevs. apply andb_true_iff in Hevs as [Hev Hevs].
    cbn [run].
    replace (fst (step parse ev (totalsEffect (initialState u))))
      with (totalsEffect (initialState u)); [now apply IH|].
    destruct ev; try discriminate Hev; reflexivity. }
  rewrite Hrun. repeat split.
Qed.

(** X16: between the events of the page a row is inserted only for a
    signed-in user who is not the owner, with two dates that parse, the
    start at or after the midnight that begins the current local day and
    strictly before the end, and with the duration of these two dates, at
    least 1, as its number of days. *)
Theorem inserted_row_is_valid
    (u0 : option User.t) (clk : Clock) (resp : InsertResponse) (st : State)
    (table : string) (row : Booking.t) :
  reachable parse u0 st ->
  In (Insert table row) (snd (handleBookingSubmit parse clk resp st)) ->
  exists (u : User.t) (eq : Equipment.t) (a b today n : Z),
    user st = Some u /\ equipment st = Some eq
    /\ table = "bookings"
    /\ Booking.user_id row = User.id u
    /\ Booking.equipment_id row = Equipment.id eq
    /\ Booking.user_id row <> Equipment.user_id eq
    /\ parse (Booking.start_date row) = Some a
    /\ parse (Booking.end_date row) = Some b
    /\ setHours0 clk = ofZ today
    /\ today <= a < b
    /\ Booking.days row = ofZ n
    /\ 86400000 * (n - 1) < b - a <= 86400000 * n
    /\ 1 <= n.
Proof.
  intros Hreach Hin. apply reachable_consistent in Hreach.
  unfold handleBookingSubmit in Hin.
  destruct (validateBooking parse clk st) as [effects|row'] eqn:Hv.
  - exfalso. cbn [snd] in Hin.
    now apply (validateBooking_Returned parse clk st effects Hv table row).
  - assert (table = "bookings" /\ row' = row) as [-> ->].
    { unfold afterInsert in Hin.
      destruct (insert_error resp); cbn in Hin;
        intuition (try discriminate); congruence. }
    apply validateBooking_Accepted in Hv
      as (u & eq & Hu & He & (Hown & Hpast & Horder & Hmin) & ->).
    cbn [bookingRow Booking.user_id Booking.equipment_id Booking.start_date
         Booking.end_date Booking.days].
    destruct (parse (BookingData.startDate (bookingData st))) as [a|] eqn:Ha;
      [|rewrite (consistent_unparsed_duration parse st Hreach) in Hmin by auto;
        discriminate].
    destruct (parse (BookingData.endDate (bookingData st))) as [b|] eqn:Hb;
      [|rewrite (consistent_unparsed_duration parse st Hreach) in Hmin by auto;
        discriminate].
    unfold new_Date in Hpast, Horder. rewrite Ha in Hpast, Horder.
    rewrite Hb in Horder. rewrite ge_ofZ in Horder. apply Z.leb_gt in Horder.
    destruct (setHours0_midnight clk) as (today & Htoday & _).
    rewrite Htoday, lt_ofZ in Hpast. apply Z.ltb_ge in Hpast.
    assert (duration st
            = ofZ (- ((- Z.abs (b - a)) / 86400000))) as Hdur.
    { rewrite (duration_of_draft parse st Hreach). unfold durationOf.
      destruct (truthy_str (BookingData.startDate (bookingData st))) eqn:Hts;
        [|rewrite (duration_of_draft parse st Hreach) in Hmin;
          unfold durationOf in Hmin; rewrite Hts in Hmin; discriminate].
      destruct (truthy_str (BookingData.endDate (bookingData st))) eqn:Hte;
        [|rewrite (duration_of_draft parse st Hreach) in Hmin;
          unfold durationOf in Hmin; rewrite Hts, Hte in Hmin; discriminate].
      cbn [andb]. now apply calculateDuration_valid. }
    pose proof (ceil_quot_bounds (Z.abs (b - a)) 86400000) as Hbounds.
    exists u, eq, a, b, today, (- ((- Z.abs (b - a)) / 86400000)).
    repeat split; try assumption; try reflexivity; try lia.
    apply String.eqb_neq. exact Hown.
Qed.

(** *** After the fetch *)

(** X17: a fetch that succeeds logs nothing, ends loading and puts the
    detail screen up; the columns of the row are stored as they are, and a
    row without joined images or without a feature list gives an empty
    gallery placeholder and no features section instead of failing. *)
Theorem successful_fetch_shows_detail
    (resp : FetchResponse) (d : EquipmentRow.t) (st : State) :
  succeeded resp d ->
  let out := fetchEquipmentDetails resp st in
  snd out = []
  /\ loading (fst out) = false
  /\ exists eq detailed,
      equipment (fst out) = Some eq
      /\ render (fst out) = DetailView detailed
      /\ Equipment.id eq = EquipmentRow.id d
      /\ Equipment.rate eq = EquipmentRow.rate d
      /\ Equipment.status eq = EquipmentRow.status d
      /\ Equipment.user_id eq = EquipmentRow.user_id d
      /\ Equipment.user_profiles eq = EquipmentRow.user_profiles d
      /\ (EquipmentRow.equipment_images d = None ->
          images detailed = NoImages "No images available")
      /\ (EquipmentRow.features d = None \/ EquipmentRow.features d = Some [] ->
          renderFeatures eq = None)
      /\ (forall fs, EquipmentRow.features d = Some fs -> fs <> [] ->
                     renderFeatures eq = Some fs).
Proof.
  intros [Herr Hdata] out. subst out. unfold fetchEquipmentDetails.
  rewrite Herr, Hdata. cbn [fst snd]. split; [reflexivity|]. split; [reflexivity|].
  eexists. eexists. split; [reflexivity|]. split; [reflexivity|].
  cbn [Equipment.id Equipment.rate Equipment.status Equipment.user_id
       Equipment.user_profiles images].
  repeat split.
  - intros Hnone. unfold renderGallery, imagesToShow. cbn. now rewrite Hnone.
  - unfold renderFeatures. cbn. now intros [-> | ->].
  - intros fs Hfs Hne. unfold renderFeatures. cbn. rewrite Hfs.
    now destruct fs.
Qed.

(** X18: after the mount and a successful fetch of an equipment whose
    images have exactly one flagged as the main one, the gallery shows
    that image large, wherever it stood in the store's answer. *)
Theorem main_image_shown_large
    (u : option User.t) (resp : FetchResponse) (d : EquipmentRow.t)
    (imgs : list Image.t) :
  succeeded resp d -> EquipmentRow.equipment_images d = Some imgs ->
  (length (filter Image.is_main imgs) <= 1)%nat ->
  existsb Image.is_main imgs = true ->
  exists (m : Image.t) (thumbnails : list string),
    In m imgs /\ Image.is_main m = true
    /\ filter Image.is_main imgs = [m]
    /\ renderGallery (fst (step parse (Fetched resp) (totalsEffect (initialState u))))
       = Gallery (Some (Image.image_url m)) thumbnails.
Proof.
  intros [Herr Hdata] Himgs Hone Hex.
  apply existsb_exists in Hex as (m0 & Hin0 & Hm0).
  assert (In m0 (filter Image.is_main imgs)) as Hin' by now apply filter_In.
  destruct (filter Image.is_main imgs) as [|m [|m' rest]] eqn:Hmains;
    [destruct Hin'| |cbn in Hone; lia].
  assert (In m imgs /\ Image.is_main m = true) as [Hin Hm].
  { assert (In m (filter Image.is_main imgs)) as H by (rewrite Hmains; now left).
    now apply filter_In in H. }
  exists m. eexists. split; [assumption|]. split; [assumption|].
  split; [reflexivity|].
  unfold step, dispatch, fetchEquipmentDetails. rewrite Herr, Hdata.
  cbn [fst]. unfold renderGallery, imagesToShow.
  destruct (totalsEffect_fields
              (setLoading false
                 (setEquipment
                    {| Equipment.id := EquipmentRow.id d;
                       Equipment.title := EquipmentRow.title d;
                       Equipment.description := EquipmentRow.description d;
                       Equipment.type := EquipmentRow.type d;
                       Equipment.location := EquipmentRow.location d;
                       Equipment.rate := EquipmentRow.rate d;
                       Equipment.status := EquipmentRow.status d;
                       Equipment.user_id := EquipmentRow.user_id d;
                       Equipment.user_profiles := EquipmentRow.user_profiles d;
                       Equipment.images :=
                         match EquipmentRow.equipment_images d with
                         | Some imgs => Array_sort mainFirst imgs
                         | None => []
                         end;
                       Equipment.features :=
                         match EquipmentRow.features d with
                         | Some fs => fs
                         | None => []
                         end |}
                    (setLoading true (totalsEffect (initialState u))))))
    as (_ & He & _ & _ & _ & _ & _ & Hi).
  rewrite He, Hi. cbn [equipment setLoading setEquipment currentImageIndex
                       Equipment.images totalsEffect initialState setTotalAmount].
  rewrite Himgs, Array_sort_mainFirst, Hmains. reflexivity.
Qed.

(** X19: a fetch leaves the selected image index as it is, so that after
    a fetch that brings fewer images than the index the gallery has no
    image to show large. *)
Theorem image_index_survives_fetch
    (resp : FetchResponse) (d : EquipmentRow.t) (imgs : list Image.t) (st : State) :
  currentImageIndex (fst (fetchEquipmentDetails resp st)) = currentImageIndex st
  /\ (succeeded resp d -> EquipmentRow.equipment_images d = Some imgs ->
      imgs <> [] -> (length imgs <= currentImageIndex st)%nat ->
      exists thumbnails,
        renderGallery (fst (fetchEquipmentDetails resp st)) = Gallery None thumbnails).
Proof.
  split.
  - unfold fetchEquipmentDetails. destruct (error resp); [reflexivity|].
    now destruct (data resp).
  - intros [Herr Hdata] Himgs Hne Hlen. unfold fetchEquipmentDetails.
    rewrite Herr, Hdata. cbn [fst]. unfold renderGallery, imagesToShow.
    cbn [equipment setLoading setEquipment currentImageIndex Equipment.images].
    rewrite Himgs.
    assert (length (map Image.image_url (Array_sort mainFirst imgs)) = length imgs)
      as Hl.
    { rewrite length_map. symmetry. apply Permutation_length.
      apply Array_sort_mainFirst_perm. }
    rewrite Hl.
    destruct (0 <? length imgs)%nat eqn:Hpos.
    + eexists. f_equal. apply nth_error_None. now rewrite Hl.
    + apply Nat.ltb_ge in Hpos. destruct imgs; [congruence|cbn in Hpos; lia].
Qed.

(** *** The provider card *)

(** X20: the name on the provider card is never empty: it is the company
    name, else the full name, else a fixed label, also when the row has no
    profile. *)
Theorem provider_name_never_empty (eq : Equipment.t) :
  providerName eq <> ""
  /\ (Equipment.user_profiles eq = None -> providerName eq = "Equipment Owner")
  /\ (forall p,
         Equipment.user_profiles eq = Some p ->
         (UserProfile.company_name p <> "" ->
          providerName eq = UserProfile.company_name p)
         /\ (UserProfile.company_name p = "" -> UserProfile.full_name p <> "" ->
             providerName eq = UserProfile.full_name p)
         /\ (UserProfile.company_name p = "" -> UserProfile.full_name p = "" ->
             providerName eq = "Equipment Owner")).
Proof.
  unfold providerName. split; [|split].
  - destruct (Equipment.user_profiles eq) as [p|]; [|discriminate].
    destruct (truthy_str (UserProfile.company_name p)) eqn:Hc;
      [now apply truthy_str_true|].
    destruct (truthy_str (UserProfile.full_name p)) eqn:Hf;
      [now apply truthy_str_true|discriminate].
  - now intros ->.
  - intros p ->. repeat split.
    + intros Hc. apply truthy_str_true in Hc. now rewrite Hc.
    + intros -> Hf. apply truthy_str_true in Hf. cbn. now rewrite Hf.
    + now intros -> ->.
Qed.

(** *** The bounds of the date inputs *)

(** X21: the earliest day that the start-date input offers is the UTC day
    of the clock, while the handler compares with the local midnight: on a
    clock whose local day is that UTC day, the handler takes this earliest
    start date as not in the past when local time is at or ahead of UTC,
    and refuses it as in the past when local time is behind UTC. *)
Theorem earliest_start_date_and_time_zone
    (clk : Clock) (st : State) (u : User.t) (eq : Equipment.t) :
  user st = Some u -> equipment st = Some eq -> isOwner st = false ->
  BookingData.startDate (bookingData st) = startDateMin toISODate clk ->
  parse (toISODate (now clk)) = Some (now clk - now clk mod 86400000) ->
  (now clk + tzOffset clk) / 86400000 = now clk / 86400000 ->
  (0 <= tzOffset clk ->
   JS.lt (new_Date parse (BookingData.startDate (bookingData st))) (setHours0 clk)
   = false)
  /\ (tzOffset clk < 0 ->
      validateBooking parse clk st
      = Returned [PreventDefault; Alert "Start date cannot be in the past"]).
Proof.
  intros Hu He Hown Hstart Hparse Hday.
  assert (JS.lt (new_Date parse (BookingData.startDate (bookingData st)))
                (setHours0 clk)
          = (0 <? - tzOffset clk)) as Hlt.
  { rewrite Hstart. unfold startDateMin, new_Date, setHours0.
    rewrite Hparse, lt_ofZ.
    pose proof (Z.div_mod (now clk) 86400000 ltac:(lia)) as Hn.
    pose proof (Z.div_mod (now clk + tzOffset clk) 86400000 ltac:(lia)) as Hl.
    destruct (0 <? - tzOffset clk) eqn:Htz.
    - apply Z.ltb_lt. apply Z.ltb_lt in Htz. lia.
    - apply Z.ltb_ge. apply Z.ltb_ge in Htz. lia. }
  split.
  - intros Htz. rewrite Hlt. apply Z.ltb_ge. lia.
  - intros Htz. unfold validateBooking. rewrite Hu, He.
    rewrite (isOwner_eq st u eq Hu He) in Hown. rewrite Hown, Hlt.
    replace (0 <? - tzOffset clk) with true by (symmetry; apply Z.ltb_lt; lia).
    reflexivity.
Qed.

(** X22: once a start date is chosen, the earliest day that the end-date
    input offers is the start date itself, and choosing it gives a
    duration of 0 and a disabled submit button. *)
Theorem earliest_end_date_cannot_be_booked
    (clk : Clock) (st : State) (a : Z) :
  BookingData.startDate (bookingData st) <> "" ->
  parse (BookingData.startDate (bookingData st)) = Some a ->
  let st' := handleDateChange parse endDate (endDateMin toISODate clk st) st in
  endDateMin toISODate clk st = BookingData.startDate (bookingData st)
  /\ duration st' = ofZ 0
  /\ (forall eq m, renderModal st' eq = Some m ->
                   disabled (submitButton m) = true /\ breakdown m = None).
Proof.
  intros Hne Ha st'.
  assert (endDateMin toISODate clk st = BookingData.startDate (bookingData st))
    as Hmin.
  { unfold endDateMin. apply truthy_str_true in Hne. now rewrite Hne. }
  assert (duration st' = ofZ 0) as Hzero.
  { subst st'. rewrite handleDateChange_duration, Hmin.
    apply durationOf_same_day.
    - unfold handleDateChange.
      now destruct (truthy_str _ && truthy_str _).
    - right. exists a. unfold handleDateChange.
      now destruct (truthy_str _ && truthy_str _). }
  split; [assumption|]. split; [assumption|].
  intros eq m. unfold renderModal.
  destruct (showBookingModal st'); [|discriminate].
  intros Hm. injection Hm as <-. cbn. rewrite Hzero. cbn.
  split; [apply orb_true_r|reflexivity].
Qed.

(** X23: for an end date before the start date the modal shows a price
    breakdown over a duration of at least 1 and an enabled submit button,
    and the handler then refuses the submission of a signed-in user who is
    not the owner, whose start date is not in the past, with the alert on
    the end date. *)
Theorem inverted_range_is_priced_then_refused
    (clk : Clock) (resp : InsertResponse) (st : State) (s e : string) (a b : Z)
    (u : User.t) (eq : Equipment.t) :
  parse s = Some a -> parse e = Some b -> s <> "" -> e <> "" -> b < a ->
  user st = Some u -> equipment st = Some eq -> isOwner st = false ->
  submitting st = false -> showBookingModal st = true ->
  JS.lt (ofZ a) (setHours0 clk) = false ->
  let st' :=
    totalsEffect (handleDateChange parse endDate e
                    (handleDateChange parse startDate s st)) in
  (exists n : Z, 1 <= n /\ duration st' = ofZ n)
  /\ (exists m shown,
         renderModal st' eq = Some m /\ breakdown m = Some shown
         /\ disabled (submitButton m) = false)
  /\ handleBookingSubmit parse clk resp st'
     = (st', [PreventDefault; Alert "End date must be after start date"]).
Proof.
  intros Hs He Hsne Hene Hlt Hu Heq Hown Hsub Hshow Hpast st'.
  set (st1 := handleDateChange parse endDate e
                (handleDateChange parse startDate s st)) in st'.
  destruct (handleDateChange_fields parse startDate s st)
    as (Hs1 & He1 & _ & Hsub1 & Heq1 & Hu1 & Hshow1 & _).
  destruct (handleDateChange_fields parse endDate e
              (handleDateChange parse startDate s st))
    as (Hs2 & He2 & _ & Hsub2 & Heq2 & Hu2 & Hshow2 & _).
  cbn zeta in *. fold st1 in Hs2, He2, Hsub2, Heq2, Hu2, Hshow2.
  destruct (totalsEffect_fields st1)
    as (Hu3 & Heq3 & _ & Hshow3 & Hb3 & Hd3 & Hsub3 & _).
  fold st' in Hu3, Heq3, Hshow3, Hb3, Hd3, Hsub3.
  assert (BookingData.startDate (bookingData st') = s) as Hstart
      by (rewrite Hb3, Hs2; exact Hs1).
  assert (BookingData.endDate (bookingData st') = e) as Hend
      by (rewrite Hb3; exact He2).
  set (n := - ((- Z.abs (b - a)) / 86400000)).
  assert (1 <= n) as Hpos
      by (pose proof (ceil_quot_bounds (Z.abs (b - a)) 86400000); lia).
  assert (duration st' = ofZ n) as Hdur.
  { rewrite Hd3.
    pose proof (handleDateChange_duration parse endDate e
                  (handleDateChange parse startDate s st)) as Hdd.
    fold st1 in Hdd. rewrite Hdd. unfold durationOf. rewrite Hs2, He2, Hs1.
    apply truthy_str_true in Hsne, Hene. rewrite Hsne, Hene. cbn [andb].
    now apply calculateDuration_valid. }
  split; [now exists n|]. split.
  - unfold renderModal. rewrite Hshow3, Hshow2, Hshow1, Hshow.
    eexists. eexists. split; [reflexivity|]. cbn [breakdown submitButton disabled].
    rewrite Hdur, Hsub3, Hsub2, Hsub1, Hsub. unfold JS.gt. rewrite !lt_ofZ.
    replace (0 <? n) with true by (symmetry; apply Z.ltb_lt; lia).
    replace (n <? 1) with false by (symmetry; apply Z.ltb_ge; lia).
    split; reflexivity.
  - unfold handleBookingSubmit, validateBooking.
    rewrite Hu3, Hu2, Hu1, Hu, Heq3, Heq2, Heq1, Heq.
    rewrite (isOwner_eq st u eq Hu Heq) in Hown. rewrite Hown.
    rewrite Hstart, Hend. unfold new_Date. rewrite Hs, He, Hpast, ge_ofZ.
    replace (b <=? a) with true by (symmetry; apply Z.leb_le; lia).
    reflexivity.
Qed.

(** X24: for a start date that is a midnight UTC and a clock less than a
    day away from UTC, the handler finds the start date in the past
    exactly when its day comes before the local day of the clock, or is
    that day while local time is behind UTC. *)
Theorem past_check_by_calendar_day (clk : Clock) (start : string) (s : Z) :
  parse start = Some s -> s mod 86400000 = 0 ->
  - 86400000 < tzOffset clk < 86400000 ->
  JS.lt (new_Date parse start) (setHours0 clk) = true
  <-> (s / 86400000 < (now clk + tzOffset clk) / 86400000
       \/ (s / 86400000 = (now clk + tzOffset clk) / 86400000 /\ tzOffset clk < 0)).
Proof.
  intros Hs Hmid Htz. unfold new_Date, setHours0. rewrite Hs, lt_ofZ, Z.ltb_lt.
  pose proof (Z.div_mod s 86400000 ltac:(lia)) as Hds.
  pose proof (Z.div_mod (now clk + tzOffset clk) 86400000 ltac:(lia)) as Hdl.
  lia.
Qed.

(** *** The gallery *)

(** X25: on the detail screen a click on the thumbnail of an image makes
    that image the one shown large and marks that thumbnail and no other;
    the draft and the modal are left alone. *)
Theorem thumbnail_selects_image
    (st : State) (eq : Equipment.t) (i : nat) (url : string) :
  loading st = false -> equipment st = Some eq ->
  nth_error (imagesToShow st) i = Some url ->
  let st' := fst (step parse (ClickThumbnail i) st) in
  (exists thumbnails, renderGallery st' = Gallery (Some url) thumbnails)
  /\ (forall j, thumbnailSelected st' j = true <-> j = i)
  /\ bookingData st' = bookingData st
  /\ showBookingModal st' = showBookingModal st.
Proof.
  intros Hl He Hurl st'.
  assert (fst (dispatch parse (ClickThumbnail i) st) = setCurrentImageIndex i st)
    as Hdis.
  { unfold dispatch, render. rewrite Hl, He. now destruct (renderModal st eq). }
  assert (st' = totalsEffect (setCurrentImageIndex i st)) as Hst'.
  { subst st'. unfold step.
    destruct (dispatch parse (ClickThumbnail i) st) as [st1 effects].
    cbn [fst] in *. now rewrite Hdis. }
  destruct (totalsEffect_fields (setCurrentImageIndex i st))
    as (_ & He' & _ & Hm' & Hb' & _ & _ & Hi').
  rewrite <- Hst' in He', Hm', Hb', Hi'. cbn in He', Hm', Hb', Hi'.
  split; [|split; [|split; assumption]].
  - unfold renderGallery, imagesToShow in *. rewrite He', Hi'.
    rewrite He in Hurl |- *.
    assert (i < length (map Image.image_url (Equipment.images eq)))%nat as Hlt
        by (apply nth_error_Some; congruence).
    destruct (0 <? length (map Image.image_url (Equipment.images eq)))%nat eqn:Hpos;
      [|apply Nat.ltb_ge in Hpos; lia].
    eexists. now rewrite Hurl.
  - intros j. unfold thumbnailSelected. rewrite Hi', Nat.eqb_eq.
    split; congruence.
Qed.

End MoreProperties.

(** ** The exact model against binary64 *)

Lemma In_upto (n : nat) (from x : Z) :
  from <= x < from + Z.of_nat n -> In x (Binary64.upto n from).
Proof.
  revert from. induction n as [|n IH]; intros from Hx; [lia|].
  cbn [Binary64.upto]. destruct (Z.eq_dec from x) as [->|Hne]; [now left|].
  right. apply IH. lia.
Qed.

Lemma In_upto_Z (n from x : Z) :
  from <= x < from + n -> In x (Binary64.upto (Z.to_nat n) from).
Proof. intros Hx. apply In_upto. rewrite Z2Nat.id; lia. Qed.

Example literal_0_05 :
  Binary64.lit_0_05 = S754_finite false 7205759403792794 (-57).
Proof. reflexivity. Qed.

(** On doubles the fee of every whole subtotal up to 4000 is the fee of
    the exact model. *)
Lemma fee_binary64_subtotals (subtotal : Z) :
  0 <= subtotal <= 4000 -> Binary64.feeAgrees 1 subtotal = true.
Proof.
  intros Hs.
  assert (forallb (Binary64.feeAgrees 1) (Binary64.upto (Z.to_nat 4001) 0) = true) as Hall
      by (vm_compute; reflexivity).
  rewrite forallb_forall in Hall. apply Hall, In_upto_Z. lia.
Qed.

(** So is the fee for 1 to 31 days at every rate that is a multiple of 50
    up to 5000. *)
Lemma fee_binary64_rates (d r : Z) :
  1 <= d <= 31 -> 0 <= r <= 100 -> Binary64.feeAgrees d (50 * r) = true.
Proof.
  intros Hd Hr.
  assert (forallb (fun d => forallb (fun r => Binary64.feeAgrees d (50 * r))
                                    (Binary64.upto (Z.to_nat 101) 0))
                  (Binary64.upto (Z.to_nat 31) 1) = true) as Hall
      by (vm_compute; reflexivity).
  rewrite forallb_forall in Hall.
  specialize (Hall d (In_upto_Z 31 1 d ltac:(lia))).
  rewrite forallb_forall in Hall. apply Hall, In_upto_Z. lia.
Qed.

(** On doubles the duration between any two of the sample dates is the
    duration of the exact model. *)
Lemma days_binary64_samples (s e : string) :
  In s Binary64.sampleDates -> In e Binary64.sampleDates ->
  Binary64.daysAgree s e = true.
Proof.
  intros Hs He.
  assert (forallb (fun s => forallb (Binary64.daysAgree s) Binary64.sampleDates)
                  Binary64.sampleDates = true) as Hall
      by (vm_compute; reflexivity).
  rewrite forallb_forall in Hall. specialize (Hall s Hs).
  rewrite forallb_forall in Hall. now apply Hall.
Qed.

(** ** The session, step by step *)

Example epoch_is_day_zero : IsoDate.parse "1970-01-01" = Some 0.
Proof. reflexivity. Qed.

Example new_year_2030 : IsoDate.parse "2030-01-01" = Some 1893456000000.
Proof. reflexivity. Qed.

Example not_a_date : IsoDate.parse "2030-02-30" = None.
Proof. reflexivity. Qed.

Example loaded_equipment : equipment Scenario.loaded = Some Scenario.shown.
Proof. reflexivity. Qed.

Example drafted_duration : duration Scenario.drafted = ofZ 3.
Proof. reflexivity. Qed.

Example drafted_total : totalAmount Scenario.drafted = ofZ 315.
Proof. reflexivity. Qed.

Lemma mounted_reachable : reachable IsoDate.parse (Some Scenario.renter) Scenario.mounted.
Proof. apply reachable_mount. Qed.

Lemma started_reachable : reachable IsoDate.parse (Some Scenario.renter) Scenario.started.
Proof.
  unfold Scenario.started, Scenario.opened, Scenario.loaded.
  repeat (apply reachable_step; [|try exact I]).
  - apply reachable_mount.
  - right. eexists. reflexivity.
Qed.

Lemma drafted_reachable : reachable IsoDate.parse (Some Scenario.renter) Scenario.drafted.
Proof.
  unfold Scenario.drafted. apply reachable_step.
  - apply started_reachable.
  - right. eexists. reflexivity.
Qed.

(** A fetch that fails after one that succeeded leaves the equipment of
    the earlier fetch in the state. *)
Example failed_refetch_keeps_equipment :
  equipment (fst (fetchEquipmentDetails Scenario.missing Scenario.loaded))
  = Some Scenario.shown.
Proof. reflexivity. Qed.

(** Strings that are no dates, which a date input never hands over, make
    the duration NaN, and every comparison of the handler is then false. *)
Example unparsed_dates_pass_the_checks :
  let st := handleDateChange IsoDate.parse endDate "later"
              (handleDateChange IsoDate.parse startDate "soon" Scenario.opened) in
  duration st = NaN
  /\ exists row,
      validateBooking IsoDate.parse Scenario.clock st = Accepted row
      /\ Booking.days row = NaN.
Proof. split; [reflexivity|]. eexists. split; reflexivity. Qed.

Example drafted_accepted :
  exists row, validateBooking IsoDate.parse Scenario.clock Scenario.drafted = Accepted row.
Proof. eexists. reflexivity. Qed.

(** ** The properties on the session *)



Lemma submit_rejected_without_insert_witness :
  reachable IsoDate.parse (Some Scenario.renter) Scenario.started
  /\ JS.lt (new_Date IsoDate.parse "2030-01-01") (new_Date IsoDate.parse "") = false
  /\ (forall table row,
         ~ In (Insert table row)
              (snd (handleBookingSubmit IsoDate.parse Scenario.clock Scenario.stored
                                        Scenario.started)))
  /\ fst (handleBookingSubmit IsoDate.parse Scenario.clock Scenario.stored Scenario.started)
     = Scenario.started.
Proof.
  split; [apply started_reachable|]. split; [reflexivity|].
  destruct (submit_rejected_without_insert IsoDate.parse Scenario.clock Scenario.stored
              Scenario.started)
    as (_ & _ & _ & Hreject & _).
  apply (Hreject (Some Scenario.renter) started_reachable). reflexivity.
Defined.

Lemma accepted_submission_inserts_pending_witness :
  user Scenario.drafted = Some Scenario.renter
  /\ equipment Scenario.drafted = Some Scenario.shown
  /\ checksPass IsoDate.parse Scenario.clock Scenario.renter Scenario.shown Scenario.drafted
  /\ exists row : Booking.t,
      filter isInsert
        (snd (handleBookingSubmit IsoDate.parse Scenario.clock Scenario.stored
                                  Scenario.drafted))
      = [Insert "bookings" row]
      /\ Booking.status row = "pending"
      /\ Booking.rate_per_day row = ofZ 100
      /\ Booking.days row = ofZ 3
      /\ Booking.notes row = None.
Proof.
  assert (checksPass IsoDate.parse Scenario.clock Scenario.renter Scenario.shown
                     Scenario.drafted) as Hpass
      by (repeat split; reflexivity).
  split; [reflexivity|]. split; [reflexivity|]. split; [exact Hpass|].
  destruct (accepted_submission_inserts_pending IsoDate.parse Scenario.clock
              Scenario.stored Scenario.drafted Scenario.renter Scenario.shown
              eq_refl eq_refl Hpass)
    as (row & Hone & Hstatus & Hrate & Hdays & _ & _ & _ & _ & _ & _ & _ & Hnotes & _).
  exists row. split; [exact Hone|]. split; [exact Hstatus|].
  split; [exact Hrate|]. split; [exact Hdays|]. apply Hnotes. reflexivity.
Defined.

Lemma main_image_sorted_first_witness :
  (length (filter Image.is_main [Scenario.front; Scenario.cover; Scenario.side])
   <= 1)%nat
  /\ Array_sort mainFirst [Scenario.front; Scenario.cover; Scenario.side]
     = [Scenario.cover; Scenario.front; Scenario.side]
  /\ stableSortOf mainFirst [Scenario.front; Scenario.cover; Scenario.side]
                  [Scenario.cover; Scenario.front; Scenario.side].
Proof.
  assert ((length (filter Image.is_main
                     [Scenario.front; Scenario.cover; Scenario.side]) <= 1)%nat)
    as Hone by (cbn; lia).
  split; [exact Hone|].
  destruct main_image_sorted_first as [Hsort _].
  destruct (Hsort [Scenario.front; Scenario.cover; Scenario.side] Hone)
    as (_ & _ & _ & _ & Hstable & _).
  split; [reflexivity|exact Hstable].
Defined.

Lemma zero_duration_resets_total_witness :
  BookingData.startDate
    (bookingData
       (totalsEffect
          (handleDateChange IsoDate.parse endDate "2030-01-01" Scenario.started)))
  = "2030-01-01"
  /\ duration
       (totalsEffect
          (handleDateChange IsoDate.parse endDate "2030-01-01" Scenario.started))
     = ofZ 0
  /\ totalAmount (totalsEffect Scenario.mounted) = ofZ 0.
Proof.
  destruct (zero_duration_resets_total IsoDate.parse) as (Hzero & _ & Hsame).
  split; [reflexivity|]. split.
  - apply (Hsame endDate "2030-01-01" Scenario.started); [reflexivity|].
    right. eexists. reflexivity.
  - apply (Hzero Scenario.mounted). right. right. reflexivity.
Defined.



Lemma minimum_duration_check_needs_missing_date_witness :
  reachable IsoDate.parse (Some Scenario.renter) Scenario.started
  /\ snd (handleBookingSubmit IsoDate.parse Scenario.clock Scenario.stored Scenario.started)
     = [PreventDefault; Alert "Minimum booking duration is 1 day"]
  /\ (("2030-01-01" = "" \/ IsoDate.parse "2030-01-01" = None)
      \/ ("" = "" \/ IsoDate.parse "" = None)).
Proof.
  split; [apply started_reachable|]. split; [reflexivity|].
  destruct (minimum_duration_check_needs_missing_date IsoDate.parse
              Scenario.clock Scenario.stored Scenario.started)
    as (_ & Hfire & _).
  apply (Hfire (Some Scenario.renter) started_reachable). reflexivity.
Defined.

Lemma book_now_requires_available_witness :
  showBookingModal Scenario.loaded = false
  /\ showBookingModal (fst (step IsoDate.parse ClickBook Scenario.loaded)) = true
  /\ isOwner Scenario.loaded = false
  /\ exists eq,
      equipment Scenario.loaded = Some eq /\ Equipment.status eq = "available".
Proof.
  split; [reflexivity|]. split; [reflexivity|].
  destruct (book_now_requires_available IsoDate.parse) as (_ & Hopen & _).
  destruct (Hopen ClickBook Scenario.loaded eq_refl eq_refl) as (_ & Hown & Havail).
  split; [exact Hown|exact Havail].
Defined.

Example iso_string_samples :
  IsoString.toISODate 0 = "1970-01-01"
  /\ IsoString.toISODate (-1) = "1969-12-31"
  /\ IsoString.toISODate 1893456000000 = "2030-01-01"
  /\ IsoString.toISODate 951868799999 = "2000-02-29"
  /\ IsoString.toISODate 253402300800000 = "+010000-01-01".
Proof. repeat split; reflexivity. Qed.

(** ** The further properties on the sessions *)

Lemma calculateDuration_symmetric_witness :
  calculateDuration IsoDate.parse "2030-01-04" "2030-01-01" = ofZ 3
  /\ calculateDuration IsoDate.parse "2030-01-01" "2030-01-04" = ofZ 3.
Proof.
  split; [|reflexivity].
  rewrite (calculateDuration_symmetric IsoDate.parse "2030-01-04" "2030-01-01").
  reflexivity.
Defined.

Lemma calculateDuration_whole_days_witness :
  IsoDate.parse "2030-01-01" = Some 1893456000000
  /\ IsoDate.parse "2030-01-04" = Some 1893715200000
  /\ 1893456000000 mod 86400000 = 0
  /\ 1893715200000 mod 86400000 = 0
  /\ calculateDuration IsoDate.parse "2030-01-01" "2030-01-04"
     = ofZ (Z.abs (1893715200000 / 86400000 - 1893456000000 / 86400000)).
Proof.
  repeat (split; [reflexivity|]).
  apply (calculateDuration_whole_days IsoDate.parse); reflexivity.
Defined.

Lemma date_changes_commute_witness :
  handleDateChange IsoDate.parse startDate "2030-01-01"
    (handleDateChange IsoDate.parse endDate "2030-01-04" Scenario.opened)
  = handleDateChange IsoDate.parse endDate "2030-01-04"
      (handleDateChange IsoDate.parse startDate "2030-01-01" Scenario.opened).
Proof.
  apply (date_changes_commute IsoDate.parse "2030-01-01" "2030-01-04" ""
           startDate Scenario.opened).
Defined.

Lemma reachable_duration_whole_witness :
  reachable IsoDate.parse (Some Scenario.renter) Scenario.drafted
  /\ exists n : Z, 0 <= n /\ duration Scenario.drafted = ofZ n.
Proof.
  split; [apply drafted_reachable|].
  apply (reachable_duration_whole IsoDate.parse (Some Scenario.renter)).
  apply drafted_reachable.
Defined.


Lemma total_monotone_in_duration_witness :
  equipment Scenario.started = Some Scenario.shown
  /\ equipment Scenario.drafted = Some Scenario.shown
  /\ (0 <= 100)%Q
  /\ atMost (totalAmount (totalsEffect Scenario.started))
            (totalAmount (totalsEffect Scenario.drafted)).
Proof.
  split; [reflexivity|]. split; [reflexivity|]. split; [discriminate|].
  apply (total_monotone_in_duration Scenario.started Scenario.drafted Scenario.shown
           100 0 3); try reflexivity; [discriminate|lia].
Defined.

Lemma breakdown_adds_up_witness :
  reachable IsoDate.parse (Some Scenario.renter) Scenario.drafted
  /\ exists m b,
      renderModal Scenario.drafted Scenario.shown = Some m
      /\ breakdown m = Some b
      /\ JS.same (totalLine b) (subtotalLine b + serviceFeeLine b)%js.
Proof.
  split; [apply drafted_reachable|].
  eexists. eexists. split; [reflexivity|]. split; [reflexivity|].
  eapply (breakdown_adds_up IsoDate.parse (Some Scenario.renter) Scenario.drafted
            Scenario.shown 100);
    [apply drafted_reachable|reflexivity..].
Defined.

Lemma inserted_total_is_displayed_witness :
  reachable IsoDate.parse (Some Scenario.renter) Scenario.drafted
  /\ JS.same (totalAmount Scenario.drafted)
             (Booking.total_amount
                (bookingRow Scenario.renter Scenario.shown Scenario.drafted)).
Proof.
  split; [apply drafted_reachable|].
  apply (inserted_total_is_displayed IsoDate.parse (Some Scenario.renter)
           Scenario.clock Scenario.drafted Scenario.shown 100);
    [apply drafted_reachable|reflexivity..].
Defined.

Lemma close_and_reopen_keeps_draft_witness :
  reachable IsoDate.parse (Some Scenario.renter) Scenario.drafted
  /\ showBookingModal Scenario.drafted = true
  /\ showBookingModal (fst (step IsoDate.parse ClickClose Scenario.drafted)) = false
  /\ fst (step IsoDate.parse ClickBook
            (fst (step IsoDate.parse ClickClose Scenario.drafted)))
     = Scenario.drafted.
Proof.
  split; [apply drafted_reachable|]. split; [reflexivity|].
  destruct (close_and_reopen_keeps_draft IsoDate.parse (Some Scenario.renter)
              Scenario.drafted Scenario.shown ClickClose drafted_reachable
              eq_refl eq_refl eq_refl eq_refl eq_refl (or_intror eq_refl))
    as (Hclosed & _ & _ & _ & Hback).
  split; assumption.
Defined.

Lemma controls_while_submitting_witness :
  showBookingModal Scenario.drafted = true
  /\ dispatch IsoDate.parse (SubmitForm Scenario.clock Scenario.stored)
       (awaitingInsert Scenario.drafted)
     = (awaitingInsert Scenario.drafted, [])
  /\ dispatch IsoDate.parse ClickClose (awaitingInsert Scenario.drafted)
     = (setShowBookingModal false (awaitingInsert Scenario.drafted), []).
Proof.
  split; [reflexivity|].
  destruct (controls_while_submitting IsoDate.parse Scenario.drafted Scenario.shown
              Scenario.clock Scenario.stored startDate "" eq_refl eq_refl eq_refl)
    as (_ & Hsubmit & Hclose & _).
  split; assumption.
Defined.

Lemma submission_outcome_witness :
  validateBooking IsoDate.parse Scenario.clock Scenario.drafted
  = Accepted (bookingRow Scenario.renter Scenario.shown Scenario.drafted)
  /\ showBookingModal
       (fst (handleBookingSubmit IsoDate.parse Scenario.clock Scenario.stored
                                 Scenario.drafted)) = false
  /\ showBookingModal
       (fst (handleBookingSubmit IsoDate.parse Scenario.clock Scenario.refused
                                 Scenario.drafted)) = true.
Proof.
  split; [reflexivity|].
  destruct (submission_outcome IsoDate.parse Scenario.clock Scenario.stored
              Scenario.drafted _ eq_refl) as (_ & _ & Hok & _).
  destruct (submission_outcome IsoDate.parse Scenario.clock Scenario.refused
              Scenario.drafted _ eq_refl) as (_ & _ & _ & Hko).
  split; [apply Hok; reflexivity|].
  destruct (Hko "row-level security" eq_refl) as [Hshow _]. exact Hshow.
Defined.

Lemma visitor_without_session_witness :
  user Visit.anonymous = None
  /\ handleBookingSubmit IsoDate.parse Scenario.clock Scenario.stored Visit.anonymous
     = (Visit.anonymous, [PreventDefault])
  /\ showBookingModal (fst (step IsoDate.parse ClickBook Visit.anonymous)) = true.
Proof.
  split; [reflexivity|].
  destruct (visitor_without_session IsoDate.parse Visit.anonymous Scenario.shown
              Scenario.clock Scenario.stored eq_refl)
    as (_ & _ & Hsilent & Hopen).
  split; [exact Hsilent|]. apply Hopen; reflexivity.
Defined.

Lemma form_never_raises_minimum_alert_witness :
  ~ In (Alert "Minimum booking duration is 1 day")
       (snd (step IsoDate.parse (SubmitForm Scenario.clock Scenario.stored)
                  Scenario.started)).
Proof.
  apply (form_never_raises_minimum_alert IsoDate.parse).
Defined.

Lemma only_submission_inserts_witness :
  (forall clk resp, Fetched Scenario.missing <> SubmitForm clk resp)
  /\ forall e,
      In e (snd (step IsoDate.parse (Fetched Scenario.missing) Scenario.mounted)) ->
      exists label err, e = ConsoleError label err.
Proof.
  assert (forall clk resp, Fetched Scenario.missing <> SubmitForm clk resp) as Hev
      by discriminate.
  split; [exact Hev|].
  apply (only_submission_inserts IsoDate.parse _ _ Hev).
Defined.

Lemma loading_until_fetched_witness :
  forallb (fun ev => negb (isFetched ev))
          [ClickBook; ChangeDate startDate "2030-01-01";
           SubmitForm Scenario.clock Scenario.stored] = true
  /\ render
       (run IsoDate.parse
            [ClickBook; ChangeDate startDate "2030-01-01";
             SubmitForm Scenario.clock Scenario.stored]
            Scenario.mounted)
     = LoadingView.
Proof.
  split; [reflexivity|].
  destruct (loading_until_fetched IsoDate.parse (Some Scenario.renter)
              [ClickBook; ChangeDate startDate "2030-01-01";
               SubmitForm Scenario.clock Scenario.stored]
              Scenario.found eq_refl) as (_ & Hview & _).
  exact Hview.
Defined.

Lemma inserted_row_is_valid_witness :
  reachable IsoDate.parse (Some Scenario.renter) Scenario.drafted
  /\ In (Insert "bookings" (bookingRow Scenario.renter Scenario.shown Scenario.drafted))
        (snd (handleBookingSubmit IsoDate.parse Scenario.clock Scenario.stored
                                  Scenario.drafted))
  /\ exists (u : User.t) (eq : Equipment.t) (a b today n : Z),
      user Scenario.drafted = Some u /\ equipment Scenario.drafted = Some eq
      /\ "bookings" = "bookings"
      /\ Booking.user_id (bookingRow Scenario.renter Scenario.shown Scenario.drafted)
         = User.id u
      /\ Booking.equipment_id (bookingRow Scenario.renter Scenario.shown Scenario.drafted)
         = Equipment.id eq
      /\ Booking.user_id (bookingRow Scenario.renter Scenario.shown Scenario.drafted)
         <> Equipment.user_id eq
      /\ IsoDate.parse
           (Booking.start_date (bookingRow Scenario.renter Scenario.shown Scenario.drafted))
         = Some a
      /\ IsoDate.parse
           (Booking.end_date (bookingRow Scenario.renter Scenario.shown Scenario.drafted))
         = Some b
      /\ setHours0 Scenario.clock = ofZ today
      /\ today <= a < b
      /\ Booking.days (bookingRow Scenario.renter Scenario.shown Scenario.drafted) = ofZ n
      /\ 86400000 * (n - 1) < b - a <= 86400000 * n
      /\ 1 <= n.
Proof.
  assert (In (Insert "bookings"
                (bookingRow Scenario.renter Scenario.shown Scenario.drafted))
             (snd (handleBookingSubmit IsoDate.parse Scenario.clock Scenario.stored
                                       Scenario.drafted))) as Hin
      by (right; left; reflexivity).
  split; [apply drafted_reachable|]. split; [exact Hin|].
  exact (inserted_row_is_valid IsoDate.parse (Some Scenario.renter) Scenario.clock
           Scenario.stored Scenario.drafted _ _ drafted_reachable Hin).
Defined.

Lemma successful_fetch_shows_detail_witness :
  succeeded Scenario.found Scenario.excavator
  /\ snd (fetchEquipmentDetails Scenario.found Scenario.mounted) = []
  /\ loading (fst (fetchEquipmentDetails Scenario.found Scenario.mounted)) = false.
Proof.
  assert (succeeded Scenario.found Scenario.excavator) as Hok by (split; reflexivity).
  split; [exact Hok|].
  destruct (successful_fetch_shows_detail Scenario.found Scenario.excavator
              Scenario.mounted Hok) as (Hlog & Hload & _).
  split; assumption.
Defined.

Lemma main_image_shown_large_witness :
  succeeded Scenario.found Scenario.excavator
  /\ (length (filter Image.is_main [Scenario.front; Scenario.cover; Scenario.side])
      <= 1)%nat
  /\ existsb Image.is_main [Scenario.front; Scenario.cover; Scenario.side] = true
  /\ exists (m : Image.t) (thumbnails : list string),
      In m [Scenario.front; Scenario.cover; Scenario.side]
      /\ Image.is_main m = true
      /\ filter Image.is_main [Scenario.front; Scenario.cover; Scenario.side] = [m]
      /\ renderGallery Scenario.loaded = Gallery (Some (Image.image_url m)) thumbnails.
Proof.
  assert (succeeded Scenario.found Scenario.excavator) as Hok by (split; reflexivity).
  assert ((length (filter Image.is_main
                     [Scenario.front; Scenario.cover; Scenario.side]) <= 1)%nat)
    as Hone by (cbn; lia).
  split; [exact Hok|]. split; [exact Hone|]. split; [reflexivity|].
  exact (main_image_shown_large IsoDate.parse (Some Scenario.renter) Scenario.found
           Scenario.excavator _ Hok eq_refl Hone eq_refl).
Defined.

Lemma image_index_survives_fetch_witness :
  currentImageIndex Visit.thirdImage = 2%nat
  /\ succeeded Visit.trailerFound Visit.trailer
  /\ exists thumbnails,
      renderGallery (fst (fetchEquipmentDetails Visit.trailerFound Visit.thirdImage))
      = Gallery None thumbnails.
Proof.
  assert (succeeded Visit.trailerFound Visit.trailer) as Hok by (split; reflexivity).
  split; [reflexivity|]. split; [exact Hok|].
  destruct (image_index_survives_fetch Visit.trailerFound Visit.trailer
              [Scenario.side] Visit.thirdImage) as [_ Hgone].
  apply Hgone; [exact Hok|reflexivity|discriminate|].
  apply Nat.leb_le. reflexivity.
Defined.

Lemma provider_name_never_empty_witness :
  Equipment.user_profiles Scenario.shown = None
  /\ providerName Scenario.shown = "Equipment Owner".
Proof.
  split; [reflexivity|].
  destruct (provider_name_never_empty Scenario.shown) as (_ & Hnone & _).
  apply Hnone. reflexivity.
Defined.

Lemma earliest_start_date_and_time_zone_witness :
  BookingData.startDate (bookingData Visit.earliest) = "2029-12-31"
  /\ IsoDate.parse (IsoString.toISODate (now Visit.behindUtc))
     = Some (now Visit.behindUtc - now Visit.behindUtc mod 86400000)
  /\ tzOffset Visit.behindUtc < 0
  /\ validateBooking IsoDate.parse Visit.behindUtc Visit.earliest
     = Returned [PreventDefault; Alert "Start date cannot be in the past"].
Proof.
  split; [reflexivity|]. split; [reflexivity|]. split; [reflexivity|].
  destruct (earliest_start_date_and_time_zone IsoDate.parse IsoString.toISODate
              Visit.behindUtc Visit.earliest Scenario.renter Scenario.shown
              eq_refl eq_refl eq_refl eq_refl eq_refl eq_refl) as [_ Hwest].
  apply Hwest. reflexivity.
Defined.

Lemma earliest_end_date_cannot_be_booked_witness :
  BookingData.startDate (bookingData Scenario.started) <> ""
  /\ IsoDate.parse (BookingData.startDate (bookingData Scenario.started))
     = Some 1893456000000
  /\ endDateMin IsoString.toISODate Scenario.clock Scenario.started = "2030-01-01"
  /\ duration
       (handleDateChange IsoDate.parse endDate
          (endDateMin IsoString.toISODate Scenario.clock Scenario.started)
          Scenario.started)
     = ofZ 0.
Proof.
  assert (BookingData.startDate (bookingData Scenario.started) <> "") as Hne
      by discriminate.
  split; [exact Hne|]. split; [reflexivity|].
  destruct (earliest_end_date_cannot_be_booked IsoDate.parse IsoString.toISODate
              Scenario.clock Scenario.started 1893456000000 Hne eq_refl)
    as (Hmin & Hzero & _).
  split; [exact Hmin|exact Hzero].
Defined.

Lemma inverted_range_is_priced_then_refused_witness :
  IsoDate.parse "2030-01-04" = Some 1893715200000
  /\ IsoDate.parse "2030-01-01" = Some 1893456000000
  /\ 1893456000000 < 1893715200000
  /\ handleBookingSubmit IsoDate.parse Scenario.clock Scenario.stored Visit.inverted
     = (Visit.inverted, [PreventDefault; Alert "End date must be after start date"]).
Proof.
  split; [reflexivity|]. split; [reflexivity|]. split; [reflexivity|].
  assert ("2030-01-04" <> "" /\ "2030-01-01" <> "") as [Hs He]
      by (split; discriminate).
  destruct (inverted_range_is_priced_then_refused IsoDate.parse Scenario.clock
              Scenario.stored Scenario.opened "2030-01-04" "2030-01-01"
              1893715200000 1893456000000 Scenario.renter Scenario.shown
              eq_refl eq_refl Hs He eq_refl eq_refl eq_refl eq_refl eq_refl eq_refl
              eq_refl)
    as (_ & _ & Hrefused).
  exact Hrefused.
Defined.

Lemma past_check_by_calendar_day_witness :
  IsoDate.parse "2029-12-30" = Some 1893283200000
  /\ 1893283200000 mod 86400000 = 0
  /\ - 86400000 < tzOffset Scenario.clock < 86400000
  /\ JS.lt (new_Date IsoDate.parse "2029-12-30") (setHours0 Scenario.clock) = true.
Proof.
  split; [reflexivity|]. split; [reflexivity|].
  assert (- 86400000 < tzOffset Scenario.clock < 86400000) as Htz
      by (split; reflexivity).
  split; [exact Htz|].
  apply (past_check_by_calendar_day IsoDate.parse Scenario.clock "2029-12-30"
           1893283200000 eq_refl eq_refl Htz).
  left. reflexivity.
Defined.

Lemma thumbnail_selects_image_witness :
  nth_error (imagesToShow Scenario.loaded) 2 = Some "https://img/side.jpg"
  /\ exists thumbnails,
      renderGallery (fst (step IsoDate.parse (ClickThumbnail 2) Scenario.loaded))
      = Gallery (Some "https://img/side.jpg") thumbnails.
Proof.
  split; [reflexivity|].
  destruct (thumbnail_selects_image IsoDate.parse Scenario.loaded Scenario.shown 2
              "https://img/side.jpg" eq_refl eq_refl eq_refl) as [Hlarge _].
  exact Hlarge.
Defined.
